(** * CreditRadar: the ledger store of [src/App.jsx], embedded and verified

    The development follows the single React component of the repository.
    Its store is a value [{ platforms, transactions }]; every handler either
    returns, raises an [alert], or queues functional [setState] updaters.
    The embedding keeps that shape:

    - JavaScript numbers are IEEE 754 binary64 values ([spec_float] with
      precision 53 and maximal exponent 1024), with the arithmetic of
      the standard library's executable specification;
    - strings are [string] (one [ascii] per code unit);
    - [crypto.randomUUID()] and [Date.now()] are explicit arguments;
    - host functions whose full behaviour lies outside the repository
      ([Date] parsing, [localeCompare], [String] of a number,
      [JSON.parse]) are section variables;
    - the [platformMap] object is a [gmap] keyed by platform name;
    - [Array.prototype.sort] is the stable sort of the language standard,
      written as an insertion sort;
    - a handler takes the store of the render it closes over as [state],
      and its queued updaters are applied in order by [run]. *)

From stdpp Require Import gmap strings.
From Stdlib Require Import ZArith List String Ascii Bool Lia SpecFloat.
From Stdlib Require Import Permutation Sorted.
From Stdlib Require OrderedTypeEx.
Import ListNotations.
Open Scope string_scope.
Open Scope list_scope.
Open Scope Z_scope.

(** ** JavaScript numbers *)

Module Num.

Definition number := spec_float.
Definition prec : Z := 53.
Definition emax : Z := 1024.

Definition NaN : number := S754_nan.
Definition Infinity : number := S754_infinity false.
Definition zero : number := S754_zero false.

(** An integer literal, and a decimal literal [n / 10^k] such as [5.33]:
    both denote the nearest binary64 value. *)
Definition of_Z (z : Z) : number := binary_normalize prec emax z 0 false.
Definition decimal (n : Z) (k : Z) : number :=
  SFdiv prec emax (of_Z n) (of_Z (10 ^ k)).

Definition add : number -> number -> number := SFadd prec emax.
Definition div : number -> number -> number := SFdiv prec emax.
Definition abs : number -> number := SFabs.
Definition ltb : number -> number -> bool := SFltb.
Definition leb : number -> number -> bool := SFleb.

(** [x || 0] on a number: NaN and both zeros are falsy. *)
Definition or_zero (x : number) : number :=
  match x with
  | S754_nan | S754_zero _ => zero
  | _ => x
  end.

(** [Number(v)] where the field may be absent ([undefined] gives NaN). *)
Definition Number (v : option number) : number :=
  match v with
  | Some x => x
  | None => NaN
  end.

(** The integer [n] of [Number.prototype.toFixed]: [n / 10^f] is as close
    as possible to the exact value [m * 2^e], the larger [n] on a tie. *)
Definition toFixed_digits (f : Z) (m : positive) (e : Z) : Z :=
  let num := Zpos m * 10 ^ f * 2 ^ Z.max e 0 in
  let den := 2 ^ Z.max (- e) 0 in
  (2 * num + den) / (2 * den).

(** [+x.toFixed(f)]: the number denoted by the string [toFixed] returns.
    Non-finite values and magnitudes from [10^21] on print as themselves;
    otherwise the string is [n / 10^f] in decimal, read back to the
    nearest binary64 value (the sign survives when [n] is zero). *)
Definition toFixed (x : number) (f : Z) : number :=
  match x with
  | S754_finite s m e =>
      if 10 ^ 21 * 2 ^ Z.max (- e) 0 <=? Zpos m * 2 ^ Z.max e 0 then x
      else
        match toFixed_digits f m e with
        | Zpos n =>
            SFdiv prec emax (S754_finite s n 0)
                  (S754_finite false (Z.to_pos (10 ^ f)) 0)
        | _ => S754_zero s
        end
  | S754_zero _ => zero
  | _ => x
  end.

(** [Math.floor]. *)
Definition floor (x : number) : number :=
  match x with
  | S754_finite s m e =>
      if 0 <=? e then x
      else
        let d := 2 ^ (- e) in
        let q := Zpos m / d in
        if s
        then binary_normalize prec emax
               (- (if Zpos m mod d =? 0 then q else q + 1)) 0 true
        else binary_normalize prec emax q 0 false
  | _ => x
  end.

End Num.

Abbreviation number := Num.number.

(** ** JavaScript strings

    A string is its sequence of code units; [string] holds the code units
    below 256. *)

Module Str.

Definition dquote : ascii := "034"%char.
Definition newline : ascii := "010"%char.
Definition comma : ascii := ","%char.

(** [a === b] on strings. *)
Definition eqb (a b : string) : bool := String.eqb a b.

(** A string is truthy unless it is empty. *)
Definition truthy (s : string) : bool := negb (String.eqb s "").

(** [s || d] on strings. *)
Definition or_else (s : option string) (d : string) : string :=
  match s with
  | Some x => if truthy x then x else d
  | None => d
  end.

(** White space removed by [trim]: the code units below 256 of the
    WhiteSpace and LineTerminator productions, which are TAB, LF, VT, FF,
    CR (9 to 13), SPACE (32) and NO-BREAK SPACE (160). *)
Definition isWhiteSpace (c : ascii) : bool :=
  let n := nat_of_ascii c in
  ((9 <=? n)%nat && (n <=? 13)%nat) || (n =? 32)%nat || (n =? 160)%nat.

Fixpoint trimStart (s : string) : string :=
  match s with
  | String c r => if isWhiteSpace c then trimStart r else s
  | EmptyString => EmptyString
  end.

Fixpoint trimEnd (s : string) : string :=
  match s with
  | String c r =>
      let r' := trimEnd r in
      if isWhiteSpace c && String.eqb r' "" then EmptyString else String c r'
  | EmptyString => EmptyString
  end.

Definition trim (s : string) : string := trimEnd (trimStart s).

(** [toLowerCase] on code units below 256: the letters A to Z (65 to 90)
    and the capital letters from A-grave to THORN (192 to 222, the
    multiplication sign 215 apart) move up by 32; every other code unit,
    sharp s (223) included, is its own lower case. *)
Definition lower (c : ascii) : ascii :=
  let n := nat_of_ascii c in
  if ((65 <=? n)%nat && (n <=? 90)%nat)
     || ((192 <=? n)%nat && (n <=? 222)%nat && negb (n =? 215)%nat)
  then ascii_of_nat (n + 32) else c.

Fixpoint toLowerCase (s : string) : string :=
  match s with
  | String c r => String (lower c) (toLowerCase r)
  | EmptyString => EmptyString
  end.

(** [s.replaceAll(c, rep)] for a one-character pattern. *)
Fixpoint replaceAll (c : ascii) (rep : string) (s : string) : string :=
  match s with
  | String x r =>
      if Ascii.eqb x c then rep +:+ replaceAll c rep r
      else String x (replaceAll c rep r)
  | EmptyString => EmptyString
  end.

(** [parts.join(sep)]. *)
Definition join (sep : string) (parts : list string) : string :=
  String.concat sep parts.

(** [s.split(c)] for a one-character separator. *)
Fixpoint split (c : ascii) (s : string) : list string :=
  match s with
  | String x r =>
      if Ascii.eqb x c then EmptyString :: split c r
      else
        match split c r with
        | p :: ps => String x p :: ps
        | [] => [String x EmptyString]
        end
  | EmptyString => [EmptyString]
  end.

End Str.

(** ** Calendar dates

    [new Date(ms).toISOString().slice(0, 10)] and its inverse on the
    date-only form [YYYY-MM-DD], over the proleptic Gregorian calendar. *)

Module Cal.

Definition msPerDay : Z := 24 * 3600 * 1000.

Definition days_from_civil (y m d : Z) : Z :=
  let y' := if m <=? 2 then y - 1 else y in
  let era := y' / 400 in
  let yoe := y' - era * 400 in
  let doy := (153 * (if 2 <? m then m - 3 else m + 9) + 2) / 5 + d - 1 in
  let doe := yoe * 365 + yoe / 4 - yoe / 100 + doy in
  era * 146097 + doe - 719468.

Definition civil_from_days (z : Z) : Z * Z * Z :=
  let z := z + 719468 in
  let era := z / 146097 in
  let doe := z - era * 146097 in
  let yoe := (doe - doe / 1460 + doe / 36524 - doe / 146096) / 365 in
  let y := yoe + era * 400 in
  let doy := doe - (365 * yoe + yoe / 4 - yoe / 100) in
  let mp := (5 * doy + 2) / 153 in
  let d := doy - (153 * mp + 2) / 5 + 1 in
  let m := if mp <? 10 then mp + 3 else mp - 9 in
  (if m <=? 2 then y + 1 else y, m, d).

Definition digit (n : Z) : ascii := ascii_of_nat (48 + Z.to_nat (n mod 10)).

Fixpoint digits (width : nat) (n : Z) (acc : string) : string :=
  match width with
  | O => acc
  | S w => digits w (n / 10) (String (digit n) acc)
  end.

(** The first ten characters of the ISO string: four-digit years print
    as [YYYY-MM-DD], the others in the signed six-digit form, of which
    ten characters reach up to the month. *)
Definition toISODate (ms : Z) : string :=
  let '(y, m, d) := civil_from_days (ms / msPerDay) in
  let tail := String "-" (digits 2 m (String "-" (digits 2 d EmptyString))) in
  if (0 <=? y) && (y <=? 9999) then digits 4 y tail
  else
    substring 0 10
      (String (if y <? 0 then "-"%char else "+"%char) (digits 6 (Z.abs y) tail)).

Definition digit_value (c : ascii) : option Z :=
  let n := nat_of_ascii c in
  if (48 <=? n)%nat && (n <=? 57)%nat then Some (Z.of_nat n - 48) else None.

Fixpoint number_of (s : string) (acc : Z) : option Z :=
  match s with
  | String c r =>
      match digit_value c with
      | Some v => number_of r (10 * acc + v)
      | None => None
      end
  | EmptyString => Some acc
  end.

Definition is_leap (y : Z) : bool :=
  ((y mod 4 =? 0) && negb (y mod 100 =? 0)) || (y mod 400 =? 0).

Definition days_in_month (y m : Z) : Z :=
  if m =? 2 then (if is_leap y then 29 else 28)
  else if (m =? 4) || (m =? 6) || (m =? 9) || (m =? 11) then 30
  else 31.

(** The time value of a date-only string [YYYY-MM-DD] naming a
    calendar day (midnight UTC); [None] stands for an invalid date. *)
Definition parse_iso_date (s : string) : option Z :=
  if negb (Nat.eqb (String.length s) 10) then None
  else if negb (String.eqb (substring 4 1 s) "-" && String.eqb (substring 7 1 s) "-")
  then None
  else
    match number_of (substring 0 4 s) 0,
          number_of (substring 5 2 s) 0,
          number_of (substring 8 2 s) 0 with
    | Some y, Some m, Some d =>
        if (1 <=? m) && (m <=? 12) && (1 <=? d) && (d <=? days_in_month y m)
        then Some (days_from_civil y m d * msPerDay)
        else None
    | _, _, _ => None
    end.

End Cal.

(** ** The data model *)

Module Platform.
Record t := mk {
  id : string;
  name : string;
  credits : number;
  color : string;
  unit : string;
  account : string;
  monthlyAllowance : number
}.
End Platform.

Module Transaction.
Record t := mk {
  id : string;
  platform : string;
  amount : number;
  project : string;
  note : string;
  date : string
}.
End Transaction.

(** The form object of the transaction drawer: a transaction without id. *)
Module TxnForm.
Record t := mk {
  platform : string;
  amount : number;
  project : string;
  note : string;
  date : string
}.
End TxnForm.

(** The object handed to [addCustomPlatform]; a field may be absent. *)
Module CustomForm.
Record t := mk {
  name : option string;
  credits : option number;
  unit : option string;
  account : option string;
  monthlyAllowance : option number;
  color : option string
}.
End CustomForm.

(** The [patch] object of [updatePlatform]: the keys it carries. *)
Module Patch.
Record t := mk {
  name : option string;
  credits : option number;
  unit : option string;
  account : option string;
  monthlyAllowance : option number;
  color : option string
}.

Definition empty : t := mk None None None None None None.

(** The object literal [{ credits: c }]. *)
Definition of_credits (c : number) : t := mk None (Some c) None None None None.

(** [{ ...p, ...patch }]. *)
Definition apply (p : Platform.t) (patch : t) : Platform.t :=
  {| Platform.id := Platform.id p;
     Platform.name := default (Platform.name p) (name patch);
     Platform.credits := default (Platform.credits p) (credits patch);
     Platform.color := default (Platform.color p) (color patch);
     Platform.unit := default (Platform.unit p) (unit patch);
     Platform.account := default (Platform.account p) (account patch);
     Platform.monthlyAllowance :=
       default (Platform.monthlyAllowance p) (monthlyAllowance patch) |}.
End Patch.

Record State := mkState {
  platforms : list Platform.t;
  transactions : list Transaction.t
}.

(** What a handler does: an [alert], or a functional [setState] updater
    that React applies to the store as it is at that moment. *)
Inductive Effect :=
| Alert (msg : string)
| SetState (updater : State -> State).

Definition step (s : State) (e : Effect) : State :=
  match e with
  | Alert _ => s
  | SetState updater => updater s
  end.

(** The store after the effects of one handler call, in the order queued. *)
Definition run (effects : list Effect) (s : State) : State :=
  fold_left step effects s.

(** ** Presets and the built-in dataset *)

Definition PLATFORM_PRESETS : list (string * string) :=
  [ ("Higgsfield", "#34d399");
    ("Suno", "#60a5fa");
    ("Google Flow", "#fbbf24");
    ("Runway", "#f472b6");
    ("Pika", "#a78bfa");
    ("Luma", "#22d3ee") ].

Section Dataset.

(** The successive results of [crypto.randomUUID()] while the module
    loads, and the value of [Date.now()] in [demoTransactions]. *)
Variable uuid : nat -> string.
Variable now : Z.

Definition days (n : Z) : string := Cal.toISODate (now - n * 24 * 3600 * 1000).

Definition demoTransactions (first : nat) : list Transaction.t :=
  [ Transaction.mk (uuid first) "Higgsfield" (Num.of_Z (-120))
      "Bug City trailer" "4 x 30s gens" (days 1);
    Transaction.mk (uuid (first + 1)) "Suno" (Num.of_Z (-40))
      "NeonShore EP" "2 songs v4" (days 2);
    Transaction.mk (uuid (first + 2)) "Runway" (Num.of_Z (-60))
      "FCG Reel" "Gen-3 alpha shots" (days 4);
    Transaction.mk (uuid (first + 3)) "Google Flow" (Num.of_Z (-30))
      "Pitch deck" "text-to-video" (days 6);
    Transaction.mk (uuid (first + 4)) "Pika" (Num.of_Z (-25))
      "Meme pack" "shorts" (days 9);
    Transaction.mk (uuid (first + 5)) "Luma" (Num.of_Z (-50))
      "Desert MV" "lighting tests" (days 12) ].

Fixpoint preset_platforms (first : nat) (presets : list (string * string))
  : list Platform.t :=
  match presets with
  | (key, color) :: rest =>
      Platform.mk (uuid first) key (Num.of_Z 1000) color "credits" "main"
        (Num.of_Z 0)
      :: preset_platforms (S first) rest
  | [] => []
  end.

Definition initialState : State :=
  {| platforms := preset_platforms 0 PLATFORM_PRESETS;
     transactions := demoTransactions (List.length PLATFORM_PRESETS) |}.

End Dataset.

(** ** Stored state

    [JSON.parse] yields a JSON value; [loadState] reads two properties
    of it and keeps whatever values they hold. *)

#[local] Unset Elimination Schemes.

Inductive json :=
| JNull
| JBool (b : bool)
| JNumber (n : number)
| JString (s : string)
| JArray (items : list json)
| JObject (fields : list (string * json)).

#[local] Set Elimination Schemes.

Module Json.

Fixpoint assoc (k : string) (fields : list (string * json)) : option json :=
  match fields with
  | (k', v) :: rest => if String.eqb k' k then Some v else assoc k rest
  | [] => None
  end.

(** [v.k]: [None] when the access throws (on [null]); [Some None] when
    the result is [undefined]. *)
Definition get (v : json) (k : string) : option (option json) :=
  match v with
  | JNull => None
  | JObject fields => Some (assoc k fields)
  | _ => Some None
  end.

(** [v ?? d]. *)
Definition nullish (v : option json) (d : json) : json :=
  match v with
  | None | Some JNull => d
  | Some j => j
  end.

Definition of_platform (p : Platform.t) : json :=
  JObject
    [ ("id", JString (Platform.id p));
      ("name", JString (Platform.name p));
      ("credits", JNumber (Platform.credits p));
      ("color", JString (Platform.color p));
      ("unit", JString (Platform.unit p));
      ("account", JString (Platform.account p));
      ("monthlyAllowance", JNumber (Platform.monthlyAllowance p)) ].

Definition of_transaction (t : Transaction.t) : json :=
  JObject
    [ ("id", JString (Transaction.id t));
      ("platform", JString (Transaction.platform t));
      ("amount", JNumber (Transaction.amount t));
      ("project", JString (Transaction.project t));
      ("note", JString (Transaction.note t));
      ("date", JString (Transaction.date t)) ].

Definition of_platforms (ps : list Platform.t) : json :=
  JArray (map of_platform ps).

Definition of_transactions (ts : list Transaction.t) : json :=
  JArray (map of_transaction ts).

End Json.

(** The object [loadState] returns: the two collections as JavaScript
    values, ready to become the component's state. *)
Record Loaded := mkLoaded {
  loaded_platforms : json;
  loaded_transactions : json
}.

Definition Loaded_of (s : State) : Loaded :=
  {| loaded_platforms := Json.of_platforms (platforms s);
     loaded_transactions := Json.of_transactions (transactions s) |}.

Section Load.

(** [JSON.parse]; [None] when it throws. *)
Variable JSON_parse : string -> option json.
(** The draws behind the module-level [initialState]. *)
Variable uuid : nat -> string.
Variable now : Z.

(** [storage] is the result of [localStorage.getItem]: [None] for
    [null].  A [TypeError] on reading a property of [null] is caught
    like a parse error. *)
Definition loadState (storage : option string) : Loaded :=
  match storage with
  | None => Loaded_of (initialState uuid now)
  | Some raw =>
      if negb (Str.truthy raw) then Loaded_of (initialState uuid now)
      else
        match JSON_parse raw with
        | None => Loaded_of (initialState uuid now)
        | Some parsed =>
            match Json.get parsed "platforms", Json.get parsed "transactions" with
            | Some ps, Some ts =>
                {| loaded_platforms :=
                     Json.nullish ps
                       (Json.of_platforms (platforms (initialState uuid now)));
                   loaded_transactions :=
                     Json.nullish ts
                       (Json.of_transactions (transactions (initialState uuid now))) |}
            | _, _ => Loaded_of (initialState uuid now)
            end
        end
  end.

End Load.

(** ** The store: handlers of the [App] component

    A handler reads the store [state] of the render it was created in and
    returns the effects it queues.  The modal flags ([showAdd], [showNew],
    [showTxn], [editing]) are view state and stay outside the store. *)

Definition DEFAULT_COLOR : string := "#64748b".

Definition addPlatform (uuid : string) (state : State) (presetName : string)
  : list Effect :=
  if negb (Str.truthy presetName) then []
  else
    let color :=
      match find (fun p => Str.eqb (fst p) presetName) PLATFORM_PRESETS with
      | Some p => snd p
      | None => DEFAULT_COLOR
      end in
    let exists_ := existsb (fun p => Str.eqb (Platform.name p) presetName) (platforms state) in
    if exists_ then [Alert "Platform already added."]
    else
      [SetState (fun s =>
         {| platforms :=
              platforms s ++
              [ {| Platform.id := uuid;
                   Platform.name := presetName;
                   Platform.credits := Num.of_Z 0;
                   Platform.color := color;
                   Platform.unit := "credits";
                   Platform.account := "main";
                   Platform.monthlyAllowance := Num.of_Z 0 |} ];
            transactions := transactions s |})].

Definition addCustomPlatform (uuid : string) (state : State) (custom : CustomForm.t)
  : list Effect :=
  let trimmed := Str.trim (Str.or_else (CustomForm.name custom) "") in
  if negb (Str.truthy trimmed) then [Alert "Name is required"]
  else if existsb
            (fun p => Str.eqb (Str.toLowerCase (Platform.name p)) (Str.toLowerCase trimmed))
            (platforms state)
  then [Alert "A platform with that name already exists."]
  else
    [SetState (fun s =>
       {| platforms :=
            platforms s ++
            [ {| Platform.id := uuid;
                 Platform.name := trimmed;
                 Platform.credits := Num.or_zero (Num.Number (CustomForm.credits custom));
                 Platform.color := Str.or_else (CustomForm.color custom) DEFAULT_COLOR;
                 Platform.unit := Str.or_else (CustomForm.unit custom) "credits";
                 Platform.account := Str.or_else (CustomForm.account custom) "main";
                 Platform.monthlyAllowance :=
                   Num.or_zero (Num.Number (CustomForm.monthlyAllowance custom)) |} ];
          transactions := transactions s |})].

Definition updatePlatform (id : string) (patch : Patch.t) : list Effect :=
  [SetState (fun s =>
     {| platforms :=
          map (fun p => if Str.eqb (Platform.id p) id then Patch.apply p patch else p)
              (platforms s);
        transactions := transactions s |})].

(** [Object.fromEntries(state.platforms.map(p => [p.name, p]))]: a later
    platform replaces an earlier one of the same name. *)
Definition platformMap (state : State) : gmap string Platform.t :=
  fold_left (fun m p => <[Platform.name p := p]> m) (platforms state) ∅.

(** [(o ?? null) !== id] for an optional string [o]. *)
Definition differs (o : option string) (id : string) : bool :=
  match o with
  | Some x => negb (Str.eqb x id)
  | None => true
  end.

Definition removePlatform (state : State) (id : string) : list Effect :=
  [SetState (fun s =>
     {| platforms := filter (fun p => negb (Str.eqb (Platform.id p) id)) (platforms s);
        transactions :=
          filter
            (fun t =>
               differs (Platform.id <$> platformMap state !! Transaction.platform t) id
               && differs (Platform.name <$> find (fun p => Str.eqb (Platform.id p) id) (platforms s))
                          (Transaction.platform t))
            (transactions s) |})].

(** [{ id: crypto.randomUUID(), ...txn }] for a form object, which has
    no [id] key of its own. *)
Definition stamp (uuid : string) (txn : TxnForm.t) : Transaction.t :=
  {| Transaction.id := uuid;
     Transaction.platform := TxnForm.platform txn;
     Transaction.amount := TxnForm.amount txn;
     Transaction.project := TxnForm.project txn;
     Transaction.note := TxnForm.note txn;
     Transaction.date := TxnForm.date txn |}.

Definition addTransaction (uuid : string) (txn : TxnForm.t) : list Effect :=
  [SetState (fun s =>
     {| platforms := platforms s;
        transactions := stamp uuid txn :: transactions s |})].

(** The [onCreate] handler given to [TransactionDrawer]. *)
Definition onCreate (uuid : string) (state : State) (t : TxnForm.t) : list Effect :=
  addTransaction uuid t ++
  match find (fun p => Str.eqb (Platform.name p) (TxnForm.platform t)) (platforms state) with
  | Some p =>
      updatePlatform (Platform.id p)
        (Patch.of_credits (Num.add (Platform.credits p) (TxnForm.amount t)))
  | None => []
  end.

(** ** Derived values *)

Definition totalCredits (state : State) : number :=
  fold_left (fun a p => Num.add a (Num.or_zero (Platform.credits p)))
            (platforms state) (Num.of_Z 0).

Section Metrics.

(** The time value of [new Date(s)]; [None] for an invalid date. *)
Variable Date_parse : string -> option Z.
(** [Date.now()]. *)
Variable now : Z.

Definition cut : Z := now - 30 * 24 * 3600 * 1000.

Definition last30 (state : State) : list Transaction.t :=
  filter
    (fun t =>
       match Date_parse (Transaction.date t) with
       | Some d => cut <=? d
       | None => false
       end)
    (transactions state).

Definition dailyBurn (state : State) : number :=
  let last30 := last30 state in
  if Nat.eqb (List.length last30) 0 then Num.of_Z 0
  else
    let spent :=
      fold_left (fun a t => Num.add a (Num.abs (Transaction.amount t)))
                (filter (fun t => Num.ltb (Transaction.amount t) (Num.of_Z 0)) last30)
                (Num.of_Z 0) in
    Num.toFixed (Num.div spent (Num.of_Z 30)) 2.

End Metrics.

Definition forecastDays (totalCredits dailyBurn : number) : number :=
  if Num.leb dailyBurn (Num.of_Z 0) then Num.Infinity
  else Num.floor (Num.div totalCredits dailyBurn).

(** ** The transaction view *)

Section View.

(** [a.localeCompare(b)]: negative, zero or positive. *)
Variable localeCompare : string -> string -> comparison.

Section Sort.
Context {A : Type}.
(** The comparator: [Gt] when the first argument sorts after the
    second. *)
Variable compareFn : A -> A -> comparison.

Fixpoint insert (x : A) (sorted : list A) : list A :=
  match sorted with
  | y :: rest =>
      match compareFn x y with
      | Gt => y :: insert x rest
      | _ => x :: sorted
      end
  | [] => [x]
  end.

(** [Array.prototype.sort]: a stable sort. *)
Fixpoint sort (l : list A) : list A :=
  match l with
  | x :: rest => insert x (sort rest)
  | [] => []
  end.
End Sort.

Definition byDateDesc (a b : Transaction.t) : comparison :=
  localeCompare (Transaction.date b) (Transaction.date a).

Definition filteredTxns (state : State) (filter_ : string) : list Transaction.t :=
  sort byDateDesc
    (filter
       (fun t => if Str.eqb filter_ "All" then true
                 else Str.eqb (Transaction.platform t) filter_)
       (transactions state)).

End View.

(** ** CSV export *)

(** A table cell: a string field or a numeric one. *)
Inductive cell :=
| CStr (s : string)
| CNum (n : number).

Section Csv_export.

(** [String(n)] on a number. *)
Variable Number_toString : number -> string.

Definition String_ (v : cell) : string :=
  match v with
  | CStr s => s
  | CNum n => Number_toString n
  end.

Definition quote : string := String Str.dquote EmptyString.

Definition quoted (v : cell) : string :=
  quote +:+ Str.replaceAll Str.dquote (quote +:+ quote) (String_ v) +:+ quote.

Definition make (rows : list (list cell)) : string :=
  Str.join (String Str.newline EmptyString)
    (map (fun r => Str.join "," (map quoted r)) rows).

Definition headers1 : list cell :=
  [CStr "Platform"; CStr "Credits"; CStr "Unit"; CStr "MonthlyAllowance"; CStr "Account"].

Definition rows1 (state : State) : list (list cell) :=
  map (fun p =>
         [ CStr (Platform.name p); CNum (Platform.credits p); CStr (Platform.unit p);
           CNum (Platform.monthlyAllowance p); CStr (Platform.account p) ])
      (platforms state).

Definition headers2 : list cell :=
  [CStr "Date"; CStr "Platform"; CStr "Amount"; CStr "Project"; CStr "Note"].

Definition rows2 (state : State) : list (list cell) :=
  map (fun t =>
         [ CStr (Transaction.date t); CStr (Transaction.platform t);
           CNum (Transaction.amount t);
           CStr (Str.or_else (Some (Transaction.project t)) "");
           CStr (Str.or_else (Some (Transaction.note t)) "") ])
      (transactions state).

Definition nl : string := String Str.newline EmptyString.

(** The [content] of the downloaded file. *)
Definition exportCSV (state : State) : string :=
  let part1 := make (headers1 :: rows1 state) in
  let part2 := make (headers2 :: rows2 state) in
  "Balances" +:+ nl +:+ part1 +:+ nl +:+ nl +:+ "Transactions" +:+ nl +:+ part2.

End Csv_export.

(** ** The development tests *)

(** [out.includes(c)] for a one-character needle. *)
Fixpoint includes (c : ascii) (s : string) : bool :=
  match s with
  | String x r => Ascii.eqb x c || includes c r
  | EmptyString => false
  end.

(** The table of [__runDevTests]. *)
Definition devTest_rows : list (list cell) :=
  [ [CStr "A,1"; CStr ("B" +:+ quote +:+ "2"); CStr ("C" +:+ nl +:+ "3")];
    [CStr "x"; CStr "y"; CStr "z"] ].

(** The values of its two assertions. *)
Definition runDevTests (Number_toString : number -> string) : bool * bool :=
  let out := make Number_toString devTest_rows in
  (includes Str.newline out,
   Nat.eqb (List.length (Str.split Str.newline out)) 3).

(** ** Class names *)

(** An argument of [classNames]: a string, or a value such as [false] or
    [undefined] ([None]). [Boolean] keeps the non-empty strings. *)
Definition Boolean_ (v : option string) : bool :=
  match v with
  | Some s => Str.truthy s
  | None => false
  end.

Definition classNames (c : list (option string)) : string :=
  Str.join " " (map (default EmptyString) (filter Boolean_ c)).

(** ** Persistence *)

Definition STORAGE_KEY : string := "ai-credit-tracker".

(** The state object as the value [JSON.stringify] walks. *)
Definition json_of_state (state : State) : json :=
  JObject [ ("platforms", Json.of_platforms (platforms state));
            ("transactions", Json.of_transactions (transactions state)) ].

(** [localStorage.getItem(key)] on a storage area held as a map. *)
Definition getItem (localStorage : gmap string string) (key : string) : option string :=
  localStorage !! key.

Section Save.

Variable JSON_stringify : json -> string.

Definition saveState (state : State) (localStorage : gmap string string)
  : gmap string string :=
  <[STORAGE_KEY := JSON_stringify (json_of_state state)]> localStorage.

End Save.

(** ** The 14-day spend chart *)

Module ChartPoint.
Record t := mk { date : string; spend : number }.
End ChartPoint.

(** The indices of [Array.from({ length: 14 })]. *)
Definition indices14 : list Z := map Z.of_nat (seq 0 14).

(** The day key of index [i]: the date of [13 - i] days before [now],
    the clock being read once per render. *)
Definition dayKey (now : Z) (i : Z) : string :=
  Cal.toISODate (now - (13 - i) * 24 * 3600 * 1000).



(** ** The platform card *)

Module PlatformCard.

Record Point := mkPoint { date : string; bal : number }.

(** The [transactions] prop: the transactions naming the platform. *)
Definition transactions_of (state : State) (p : Platform.t) : list Transaction.t :=
  filter (fun t => Str.eqb (Transaction.platform t) (Platform.name p)) (transactions state).

Section Burn.

Variable Date_parse : string -> option Z.
Variable now : Z.

Definition spent30 (transactions : list Transaction.t) : number :=
  Num.abs
    (fold_left (fun a t => Num.add a (Transaction.amount t))
       (filter
          (fun t =>
             match Date_parse (Transaction.date t) with
             | Some d => cut now <=? d
             | None => false
             end
             && Num.ltb (Transaction.amount t) (Num.of_Z 0))
          transactions)
       (Num.of_Z 0)).

Definition daily (transactions : list Transaction.t) : number :=
  Num.toFixed (Num.div (spent30 transactions) (Num.of_Z 30)) 2.

End Burn.

Definition daysLeft (platform : Platform.t) (daily : number) : number :=
  if Num.ltb (Num.of_Z 0) daily
  then Num.floor (Num.div (Num.or_zero (Platform.credits platform)) daily)
  else Num.Infinity.

Definition dailySpend (transactions : list Transaction.t) (key : string) : number :=
  fold_left (fun a t => Num.add a (Transaction.amount t))
            (filter (fun t => Str.eqb (Transaction.date t) key) transactions)
            (Num.of_Z 0).

Definition days (now : Z) (transactions : list Transaction.t) : list Point :=
  map (fun i => let key := dayKey now i in mkPoint key (dailySpend transactions key))
      indices14.



End PlatformCard.

(** ** The platform editor *)

Module EditPlatform.

Record Form := mkForm {
  name : string;
  credits : number;
  unit : string;
  account : string;
  monthlyAllowance : number;
  color : string
}.

(** The initial form for the [platform] prop, which is [undefined]
    ([None]) when no platform carries the edited id. *)
Definition initial (platform : option Platform.t) : Form :=
  {| name := Str.or_else (Platform.name <$> platform) "";
     credits := Num.or_zero (Num.Number (Platform.credits <$> platform));
     unit := Str.or_else (Platform.unit <$> platform) "credits";
     account := Str.or_else (Platform.account <$> platform) "main";
     monthlyAllowance := Num.or_zero (Num.Number (Platform.monthlyAllowance <$> platform));
     color := Str.or_else (Platform.color <$> platform) DEFAULT_COLOR |}.

(** The form object handed to [updatePlatform] as its patch. *)
Definition patch_of (form : Form) : Patch.t :=
  {| Patch.name := Some (name form);
     Patch.credits := Some (credits form);
     Patch.unit := Some (unit form);
     Patch.account := Some (account form);
     Patch.monthlyAllowance := Some (monthlyAllowance form);
     Patch.color := Some (color form) |}.

(** The [platform] prop the component receives from [App]. *)
Definition platform_prop (state : State) (editing : string) : option Platform.t :=
  find (fun p => Str.eqb (Platform.id p) editing) (platforms state).

(** [onSave] and [onRemove] as [App] binds them for the edited id. *)
Definition onSave (editing : string) (form : Form) : list Effect :=
  updatePlatform editing (patch_of form).

Definition onRemove (state : State) (editing : string) : list Effect :=
  removePlatform state editing.

End EditPlatform.

(** ** The transaction drawer *)

Module Drawer.

(** The [newPf] form of the inline platform creation. *)
Record NewPf := mkNewPf {
  name : string;
  credits : number;
  unit : string;
  account : string;
  monthlyAllowance : number;
  color : string
}.

Record t := mk {
  form : TxnForm.t;
  newPf : NewPf;
  makeNew : bool
}.

(** The state of a drawer just opened; [today] is the day of the clock. *)
Definition initial (platforms : list Platform.t) (today : string) : t :=
  {| form :=
       {| TxnForm.platform := Str.or_else (Platform.name <$> head platforms) "";
          TxnForm.amount := Num.of_Z (-10);
          TxnForm.project := "";
          TxnForm.note := "";
          TxnForm.date := today |};
     newPf := mkNewPf "" (Num.of_Z 0) "credits" "main" (Num.of_Z 0) "#22c55e";
     makeNew := false |}.

Definition with_platform (f : TxnForm.t) (platform : string) : TxnForm.t :=
  {| TxnForm.platform := platform;
     TxnForm.amount := TxnForm.amount f;
     TxnForm.project := TxnForm.project f;
     TxnForm.note := TxnForm.note f;
     TxnForm.date := TxnForm.date f |}.

Definition handlePlatformChange (val : string) (d : t) : t :=
  if Str.eqb val "__NEW__"
  then {| form := with_platform (form d) ""; newPf := newPf d; makeNew := true |}
  else {| form := with_platform (form d) val; newPf := newPf d; makeNew := false |}.

(** The object [newPf] as [addCustomPlatform] receives it. *)
Definition custom_of (pf : NewPf) : CustomForm.t :=
  {| CustomForm.name := Some (name pf);
     CustomForm.credits := Some (credits pf);
     CustomForm.unit := Some (unit pf);
     CustomForm.account := Some (account pf);
     CustomForm.monthlyAllowance := Some (monthlyAllowance pf);
     CustomForm.color := Some (color pf) |}.

(** [createAndSelect]: the effects on the store and the next drawer. *)
Definition createAndSelect (onCreatePlatform : CustomForm.t -> list Effect) (d : t)
  : list Effect * t :=
  let trimmed := Str.trim (Str.or_else (Some (name (newPf d))) "") in
  if negb (Str.truthy trimmed) then ([Alert "Name is required"], d)
  else
    (onCreatePlatform (custom_of (newPf d)),
     {| form := with_platform (form d) trimmed; newPf := newPf d; makeNew := false |}).

(** The click handler of the [Add] button. *)
Definition add (onCreate : TxnForm.t -> list Effect) (d : t) : list Effect :=
  if negb (Str.truthy (TxnForm.platform (form d)))
  then [Alert "Select a platform (or create NEW)"]
  else onCreate (form d).

End Drawer.

(** * Vocabulary of the specification *)

(** Platform ids are unique: no two platforms of the store share one. *)
Definition distinct_ids (ps : list Platform.t) : Prop :=
  List.NoDup (map Platform.id ps).

(** The platform [p] with its balance replaced. *)
Definition with_credits (p : Platform.t) (c : number) : Platform.t :=
  {| Platform.id := Platform.id p;
     Platform.name := Platform.name p;
     Platform.credits := c;
     Platform.color := Platform.color p;
     Platform.unit := Platform.unit p;
     Platform.account := Platform.account p;
     Platform.monthlyAllowance := Platform.monthlyAllowance p |}.

(** The balance of the first platform of a given name. *)
Definition credits_of (name : string) (s : State) : option number :=
  Platform.credits <$> find (fun p => Str.eqb (Platform.name p) name) (platforms s).

(** The name [addCustomPlatform] checks and stores. *)
Definition trimmed_name (custom : CustomForm.t) : string :=
  Str.trim (Str.or_else (CustomForm.name custom) "").

(** The test [filteredTxns] applies to each transaction. *)
Definition selected (filter_ : string) (t : Transaction.t) : bool :=
  if Str.eqb filter_ "All" then true else Str.eqb (Transaction.platform t) filter_.

(** [x] may stand before [y] under a sort comparator. *)
Definition before {A : Type} (compareFn : A -> A -> comparison) (x y : A) : Prop :=
  compareFn x y <> Gt.

Section Burn_wording.

Variable Date_parse : string -> option Z.
Variable now : Z.

(** The wording of the specification: the transactions of the last 30
    days are those dated on or after [now] minus 30 days; a spend has a
    negative amount; the burn is the sum of the magnitudes of the spends
    of the last 30 days over 30, to two decimals. *)
Definition in_last_30_days (t : Transaction.t) : bool :=
  match Date_parse (Transaction.date t) with
  | Some d => now - 30 * Cal.msPerDay <=? d
  | None => false
  end.

Definition is_spend (t : Transaction.t) : bool :=
  Num.ltb (Transaction.amount t) (Num.of_Z 0).

Definition sum (l : list number) : number := fold_left Num.add l (Num.of_Z 0).

Definition dailyBurn_spec (ts : list Transaction.t) : number :=
  Num.toFixed
    (Num.div
       (sum (map (fun t => Num.abs (Transaction.amount t))
                 (filter (fun t => is_spend t && in_last_30_days t) ts)))
       (Num.of_Z 30))
    2.

End Burn_wording.

(** The reader the specification has in mind when it re-splits the
    export on row boundaries: inside a quoted field a doubled quote
    stands for one quote and a newline is data; outside, a newline ends
    the row and a comma separates fields.  The result is built from the
    end of the text: the closing quote opens an empty field, to which the
    characters before it are added in turn. *)
Module Csv.

Definition add_char (c : ascii) (rows : list (list string)) : list (list string) :=
  match rows with
  | (f :: fs) :: rs => (String c f :: fs) :: rs
  | _ => rows
  end.

Definition add_field (f : string) (rows : list (list string)) : list (list string) :=
  match rows with
  | r :: rs => (f :: r) :: rs
  | [] => [[f]]
  end.

Fixpoint read (inside : bool) (s : string) : list (list string) :=
  match s with
  | EmptyString => [[]]
  | String c r =>
      if inside then
        if Ascii.eqb c Str.dquote then
          match r with
          | String c' r' =>
              if Ascii.eqb c' Str.dquote then add_char Str.dquote (read true r')
              else add_field EmptyString (read false r)
          | EmptyString => add_field EmptyString (read false r)
          end
        else add_char c (read true r)
      else if Ascii.eqb c Str.dquote then read true r
      else if Ascii.eqb c Str.newline then [] :: read false r
      else read false r
  end.

Definition records (s : string) : list (list string) := read false s.

Definition opens_quote (s : string) : bool :=
  match s with
  | String c _ => Ascii.eqb c Str.dquote
  | EmptyString => false
  end.

End Csv.

(** One row of a table as [make] writes it. *)
Definition row_text (Number_toString : number -> string) (r : list cell) : string :=
  Str.join "," (map (quoted Number_toString) r).

(** * Concrete stores

    The built-in dataset for fixed draws: ids [uuid-00], [uuid-01], ...
    and a clock at noon UTC on 2025-11-11. *)

Definition demo_uuid (n : nat) : string := "uuid-" +:+ Cal.digits 2 (Z.of_nat n) EmptyString.
Definition demo_now : Z := 1762862400000.
Definition demo_state : State := initialState demo_uuid demo_now.

Definition demo_suno : Platform.t :=
  Platform.mk (demo_uuid 1) "Suno" (Num.of_Z 1000) "#60a5fa" "credits" "main" (Num.of_Z 0).

Definition demo_txn : TxnForm.t :=
  {| TxnForm.platform := "Suno";
     TxnForm.amount := Num.of_Z (-40);
     TxnForm.project := "NeonShore EP";
     TxnForm.note := "";
     TxnForm.date := "2025-11-11" |}.

(** The form of the new-platform modal, filled in. *)
Definition custom_form (name : string) (credits : number) : CustomForm.t :=
  {| CustomForm.name := Some name;
     CustomForm.credits := Some credits;
     CustomForm.unit := Some "credits";
     CustomForm.account := Some "main";
     CustomForm.monthlyAllowance := Some (Num.of_Z 0);
     CustomForm.color := Some "#22c55e" |}.

(** From the built-in dataset: remove Suno, create the custom platform
    [suno], then pick the preset [Suno]. *)
Definition without_suno : State :=
  run (removePlatform demo_state (demo_uuid 1)) demo_state.

Definition with_custom_suno : State :=
  run (addCustomPlatform (demo_uuid 12) without_suno (custom_form "suno" (Num.of_Z 0)))
      without_suno.

Definition with_both_sunos : State :=
  run (addPlatform (demo_uuid 13) with_custom_suno "Suno") with_custom_suno.

(** [setForm({...form, name: e.target.value})] in the platform editor. *)
Definition typed_name (form : EditPlatform.Form) (name : string) : EditPlatform.Form :=
  {| EditPlatform.name := name;
     EditPlatform.credits := EditPlatform.credits form;
     EditPlatform.unit := EditPlatform.unit form;
     EditPlatform.account := EditPlatform.account form;
     EditPlatform.monthlyAllowance := EditPlatform.monthlyAllowance form;
     EditPlatform.color := EditPlatform.color form |}.

(** From the built-in dataset: open the editor on Runway, type the name
    [RUNWAY] and save; then pick the preset [Runway]. *)
Definition renamed_runway : State :=
  run (EditPlatform.onSave (demo_uuid 3)
         (typed_name (EditPlatform.initial (EditPlatform.platform_prop demo_state (demo_uuid 3)))
                     "RUNWAY"))
      demo_state.

Definition with_both_runways : State :=
  run (addPlatform (demo_uuid 12) renamed_runway "Runway") renamed_runway.

(** A store of 160 credits with spends of 120 and 40 in the last two days
    and an old one outside the window. *)
Definition burn_state : State :=
  {| platforms := [Platform.mk (demo_uuid 0) "Higgsfield" (Num.of_Z 160) "#34d399" "credits"
                     "main" (Num.of_Z 0)];
     transactions :=
       [ Transaction.mk (demo_uuid 1) "Higgsfield" (Num.of_Z (-120)) "" "" (days demo_now 1);
         Transaction.mk (demo_uuid 2) "Higgsfield" (Num.of_Z (-40)) "" "" (days demo_now 2);
         Transaction.mk (demo_uuid 3) "Higgsfield" (Num.of_Z (-500)) "" "" "2025-01-31" ] |}.

(** What [JSON.parse] makes of two stored strings: an object with the
    single key [platforms] holding an empty array, and a text that is
    no JSON. *)
Definition stored_platforms_only : string :=
  "{" +:+ quote +:+ "platforms" +:+ quote +:+ ":[]}".

Definition demo_JSON_parse (raw : string) : option json :=
  if String.eqb raw stored_platforms_only then Some (JObject [("platforms", JArray [])])
  else if String.eqb raw "{oops" then None
  else Some JNull.

(** Two spends of the same day, and an older one. *)
Definition txn_a : Transaction.t :=
  Transaction.mk "a" "Suno" (Num.of_Z (-40)) "" "" "2025-11-10".
Definition txn_b : Transaction.t :=
  Transaction.mk "b" "Runway" (Num.of_Z (-60)) "" "" "2025-11-10".
Definition txn_c : Transaction.t :=
  Transaction.mk "c" "Suno" (Num.of_Z (-25)) "" "" "2025-11-02".

Ltac distinct_concrete :=
  unfold distinct_ids; vm_compute;
  repeat (constructor; [simpl; intuition discriminate|]); constructor.

Ltac string_cases s t :=
  unfold Str.eqb; destruct (String.eqb_spec s t).

(** A goal about every platform of a concrete store, one by one. *)
Ltac each_platform H :=
  vm_compute in H;
  repeat (destruct H as [<-|H]; [vm_compute; discriminate|]);
  destruct H.

(** * Further vocabulary *)

(** A number that is NaN or has a clear sign bit: zero, a positive
    finite value or positive infinity. *)
Definition sign_clear (x : number) : bool :=
  match x with
  | S754_nan => true
  | S754_zero s | S754_infinity s | S754_finite s _ _ => negb s
  end.

(** A number that is NaN or carries the sign [s]. *)
Definition signed_as (s : bool) (x : number) : Prop :=
  match x with
  | S754_nan => True
  | S754_zero s' | S754_infinity s' | S754_finite s' _ _ => s' = s
  end.

(** No two platforms bear the same name up to case. *)
Definition unique_names (ps : list Platform.t) : Prop :=
  List.NoDup (map (fun p => Str.toLowerCase (Platform.name p)) ps).

Definition distinct_txn_ids (ts : list Transaction.t) : Prop :=
  List.NoDup (map Transaction.id ts).



(** A platform as the editor's untouched form writes it back. *)
Definition normalised (p : Platform.t) : Platform.t :=
  {| Platform.id := Platform.id p;
     Platform.name := Platform.name p;
     Platform.credits := Num.or_zero (Platform.credits p);
     Platform.color := Str.or_else (Some (Platform.color p)) DEFAULT_COLOR;
     Platform.unit := Str.or_else (Some (Platform.unit p)) "credits";
     Platform.account := Str.or_else (Some (Platform.account p)) "main";
     Platform.monthlyAllowance := Num.or_zero (Platform.monthlyAllowance p) |}.

(** The platform [addCustomPlatform] appends for a form and a drawn id. *)
Definition created (uuid : string) (custom : CustomForm.t) : Platform.t :=
  {| Platform.id := uuid;
     Platform.name := trimmed_name custom;
     Platform.credits := Num.or_zero (Num.Number (CustomForm.credits custom));
     Platform.color := Str.or_else (CustomForm.color custom) DEFAULT_COLOR;
     Platform.unit := Str.or_else (CustomForm.unit custom) "credits";
     Platform.account := Str.or_else (CustomForm.account custom) "main";
     Platform.monthlyAllowance :=
       Num.or_zero (Num.Number (CustomForm.monthlyAllowance custom)) |}.

(** The store with its effects applied, then the next store for a second
    handler created in the render that follows. *)
Definition then_run (first : list Effect) (second : State -> list Effect) (s : State)
  : State :=
  run (second (run first s)) (run first s).

(** ** Further concrete values *)

(** A serialiser and a parser defined on one value: the built-in dataset
    of the concrete draws. *)
Definition demo_JSON_stringify (j : json) : string := "<demo>".

Definition demo_JSON_reparse (raw : string) : option json :=
  if String.eqb raw "<demo>" then Some (json_of_state demo_state) else None.

Definition demo_newPf (name : string) : Drawer.NewPf :=
  Drawer.mkNewPf name (Num.of_Z 100) "credits" "main" (Num.of_Z 0) "#22c55e".

Definition demo_drawer (name : string) : Drawer.t :=
  {| Drawer.form := demo_txn; Drawer.newPf := demo_newPf name; Drawer.makeNew := true |}.

(** NO-BREAK SPACE and the two cases of e-acute, as code units. *)
Definition nbsp : string := String "160"%char "".
Definition E_acute : string := String "201"%char "".
Definition e_acute : string := String "233"%char "".

(** The built-in dataset with Suno renamed, in the editor, to a name that
    starts with a capital e-acute. *)
Definition accented_state : State :=
  run (EditPlatform.onSave (demo_uuid 1)
         (typed_name (EditPlatform.initial (EditPlatform.platform_prop demo_state (demo_uuid 1)))
                     (E_acute +:+ "cho")))
      demo_state.

(** * Properties *)

(** ** Lists and strings *)

Lemma filter_all {A} (f : A -> bool) l :
  (forall x, In x l -> f x = true) -> filter f l = l.
Proof.
  induction l as [|x l IH]; simpl; intros H; [reflexivity|].
  rewrite (H x) by auto. f_equal. apply IH. auto.
Qed.

Lemma filter_twice {A} (f g : A -> bool) l :
  filter f (filter g l) = filter (fun x => f x && g x) l.
Proof.
  induction l as [|x l IH]; simpl; [reflexivity|].
  destruct (g x); simpl.
  - rewrite andb_true_r. now rewrite IH.
  - now rewrite andb_false_r.
Qed.

Lemma fold_left_through_map {A B C} (f : A -> B -> A) (g : C -> B) l a :
  fold_left (fun acc x => f acc (g x)) l a = fold_left f (map g l) a.
Proof. revert a. induction l as [|x l IH]; simpl; auto. Qed.

Lemma find_first_match {A} (f : A -> bool) l1 x l2 :
  f x = true -> (forall y, In y l1 -> f y = false) -> find f (l1 ++ x :: l2) = Some x.
Proof.
  intros Hx. induction l1 as [|y l1 IH]; simpl; intros H.
  - now rewrite Hx.
  - rewrite (H y) by auto. apply IH. auto.
Qed.

Lemma find_no_match {A} (f : A -> bool) l :
  (forall y, In y l -> f y = false) -> find f l = None.
Proof.
  induction l as [|y l IH]; simpl; intros H; [reflexivity|].
  rewrite (H y) by auto. apply IH. auto.
Qed.

Lemma existsb_false {A} (f : A -> bool) l :
  (forall x, In x l -> f x = false) -> existsb f l = false.
Proof.
  induction l as [|x l IH]; simpl; intros H; [reflexivity|].
  rewrite (H x) by auto. apply IH. auto.
Qed.

Lemma truthy_iff s : Str.truthy s = true <-> s <> "".
Proof.
  unfold Str.truthy. destruct (String.eqb_spec s ""); simpl; split; congruence.
Qed.

Lemma append_assoc (a b c : string) : (a +:+ b) +:+ c = a +:+ (b +:+ c).
Proof.
  induction a as [|x a IH]; [reflexivity|].
  change (String x ((a +:+ b) +:+ c) = String x (a +:+ (b +:+ c))).
  now rewrite IH.
Qed.

Lemma append_empty (a : string) : a +:+ EmptyString = a.
Proof.
  induction a as [|x a IH]; [reflexivity|].
  change (String x (a +:+ EmptyString) = String x a).
  now rewrite IH.
Qed.

(** ** The host functions on known values *)

Example toFixed_values :
  Num.toFixed (Num.div (Num.of_Z 160) (Num.of_Z 30)) 2 = Num.decimal 533 2
  /\ Num.toFixed (Num.decimal 1005 3) 2 = Num.of_Z 1
  /\ Num.toFixed (Num.decimal 8345 3) 2 = Num.decimal 835 2
  /\ Num.toFixed (Num.decimal (-1) 3) 2 = S754_zero true
  /\ Num.toFixed (Num.of_Z 0) 2 = Num.of_Z 0
  /\ Num.toFixed Num.NaN 2 = Num.NaN
  /\ Num.toFixed Num.Infinity 2 = Num.Infinity.
Proof. vm_compute. repeat split; reflexivity. Qed.

Example floor_values :
  Num.floor (Num.decimal 300187 4) = Num.of_Z 30
  /\ Num.floor (Num.decimal 5 1) = Num.of_Z 0
  /\ Num.floor (Num.decimal (-5) 1) = Num.of_Z (-1)
  /\ Num.floor (Num.decimal (-25) 1) = Num.of_Z (-3)
  /\ Num.floor (Num.of_Z 7) = Num.of_Z 7
  /\ Num.floor Num.NaN = Num.NaN.
Proof. vm_compute. repeat split; reflexivity. Qed.

Example calendar_values :
  Cal.toISODate 0 = "1970-01-01"
  /\ Cal.toISODate (-1) = "1969-12-31"
  /\ Cal.toISODate 951782400000 = "2000-02-29"
  /\ Cal.toISODate demo_now = "2025-11-11"
  /\ Cal.parse_iso_date "2025-11-11" = Some 1762819200000
  /\ Cal.parse_iso_date "2025-02-29" = None
  /\ Cal.parse_iso_date "" = None
  /\ map (days demo_now) [1; 2; 4; 6; 9; 12]
     = ["2025-11-10"; "2025-11-09"; "2025-11-07"; "2025-11-05"; "2025-11-02"; "2025-10-30"].
Proof. vm_compute. repeat split; reflexivity. Qed.

Example string_values :
  Str.trim "  Veo 3 " = "Veo 3"
  /\ Str.trim (String "160"%char ("Veo" +:+ String "160"%char "")) = "Veo"
  /\ Str.trim (String "160"%char "") = ""
  /\ Str.toLowerCase "Google Flow" = "google flow"
  /\ Str.toLowerCase (String "201"%char "") = String "233"%char ""
  /\ Str.toLowerCase (String "215"%char (String "223"%char ""))
     = String "215"%char (String "223"%char "")
  /\ Str.split "," "a,,b," = ["a"; ""; "b"; ""]
  /\ Str.join "," ["a"; "b"; "c"] = "a,b,c"
  /\ Str.or_else (Some "") "main" = "main"
  /\ Str.or_else None "main" = "main".
Proof. vm_compute. repeat split; reflexivity. Qed.

(** ** Platforms with distinct ids *)

Lemma same_id_same_platform ps a b :
  distinct_ids ps -> In a ps -> In b ps -> Platform.id a = Platform.id b -> a = b.
Proof.
  unfold distinct_ids. induction ps as [|q ps IH]; simpl; [tauto|].
  intros Hnd Ha Hb Hid. inversion Hnd as [|? ? Hnotin Hnd']; subst.
  destruct Ha as [->|Ha], Hb as [->|Hb]; auto.
  - exfalso. apply Hnotin. rewrite Hid. now apply in_map.
  - exfalso. apply Hnotin. rewrite <- Hid. now apply in_map.
Qed.

Lemma find_by_id ps p :
  distinct_ids ps -> In p ps ->
  find (fun q => Str.eqb (Platform.id q) (Platform.id p)) ps = Some p.
Proof.
  intros Hnd. induction ps as [|q ps IH]; simpl; [tauto|].
  intros Hin. string_cases (Platform.id q) (Platform.id p).
  - f_equal. apply (same_id_same_platform (q :: ps)); simpl; auto.
  - destruct Hin as [->|Hin]; [congruence|].
    apply IH; auto. now inversion Hnd.
Qed.

(** Around a platform [p] of a store with distinct ids, no other platform
    carries the id of [p]. *)
Lemma other_ids_differ l1 p l2 q :
  distinct_ids (l1 ++ p :: l2) -> In q (l1 ++ l2) ->
  Str.eqb (Platform.id q) (Platform.id p) = false.
Proof.
  intros Hnd Hq. string_cases (Platform.id q) (Platform.id p); [|reflexivity].
  exfalso.
  assert (q = p) as ->.
  { apply (same_id_same_platform (l1 ++ p :: l2)); auto.
    - apply in_app_iff. apply in_app_iff in Hq. simpl. tauto.
    - apply in_app_iff. simpl. auto. }
  unfold distinct_ids in Hnd. rewrite map_app in Hnd. simpl in Hnd.
  apply NoDup_remove_2 in Hnd. apply Hnd.
  rewrite <- map_app. now apply in_map.
Qed.

Lemma filter_out_id l1 p l2 :
  distinct_ids (l1 ++ p :: l2) ->
  filter (fun q => negb (Str.eqb (Platform.id q) (Platform.id p))) (l1 ++ p :: l2)
  = l1 ++ l2.
Proof.
  intros Hnd. rewrite filter_app. simpl.
  unfold Str.eqb at 2. rewrite String.eqb_refl. simpl.
  rewrite !filter_all; auto; intros q Hq;
    rewrite (other_ids_differ l1 p l2 q Hnd); auto; apply in_app_iff; auto.
Qed.

Lemma map_patch_one (f : Platform.t -> Platform.t) l1 p l2 :
  distinct_ids (l1 ++ p :: l2) ->
  map (fun q => if Str.eqb (Platform.id q) (Platform.id p) then f q else q)
      (l1 ++ p :: l2)
  = l1 ++ f p :: l2.
Proof.
  intros Hnd.
  assert (Hother : forall l, (forall q, In q l -> In q (l1 ++ l2)) ->
            map (fun q => if Str.eqb (Platform.id q) (Platform.id p) then f q else q) l = l).
  { induction l as [|q l IH]; simpl; intros Hsub; [reflexivity|].
    rewrite IH by auto. now rewrite (other_ids_differ l1 p l2 q Hnd) by auto. }
  rewrite map_app. simpl. unfold Str.eqb at 2. rewrite String.eqb_refl.
  rewrite !Hother; auto; intros q Hq; apply in_app_iff; auto.
Qed.

Lemma demo_state_distinct_ids : distinct_ids (platforms demo_state).
Proof. distinct_concrete. Qed.

(** ** The name index *)

Lemma platformMap_fold ps (m : gmap string Platform.t) k q :
  fold_left (fun m p => <[Platform.name p := p]> m) ps m !! k = Some q ->
  m !! k = Some q \/ (In q ps /\ Platform.name q = k).
Proof.
  revert m. induction ps as [|p ps IH]; simpl; intros m H; [auto|].
  apply IH in H. destruct H as [H|[H1 H2]]; [|auto].
  apply lookup_insert_Some in H. destruct H as [[<- <-]|[_ H]]; auto.
Qed.

Lemma platformMap_sound state k q :
  platformMap state !! k = Some q -> In q (platforms state) /\ Platform.name q = k.
Proof.
  unfold platformMap. intros H. apply platformMap_fold in H.
  destruct H as [H|H]; [|exact H]. rewrite lookup_empty in H. discriminate.
Qed.

(** ** [addTransaction] and the drawer's [onCreate] *)

(** C10. [addTransaction] by itself changes the transaction collection
    only: the platform collection after it is the one before, and the new
    transaction, stamped with the drawn id, stands first.  Balances move
    only through the [updatePlatform] the caller queues after it. *)
Theorem addTransaction_frame (uuid : string) (txn : TxnForm.t) (s : State) :
  platforms (run (addTransaction uuid txn) s) = platforms s
  /\ transactions (run (addTransaction uuid txn) s) = stamp uuid txn :: transactions s.
Proof. split; reflexivity. Qed.



(** ** [updatePlatform] *)

Lemma map_unchanged {A} (f : A -> A) l :
  (forall x, In x l -> f x = x) -> map f l = l.
Proof.
  induction l as [|x l IH]; simpl; intros H; [reflexivity|].
  rewrite (H x) by auto. f_equal. apply IH. auto.
Qed.

(** X1. [updatePlatform(id, patch)] merges the fields of [patch] into the
    platform carrying [id], leaving the other platforms and the
    transactions as they were; when no platform carries [id] the store
    is unchanged. *)
Theorem updatePlatform_merges (id : string) (patch : Patch.t) (s : State) :
  (forall l1 p l2,
      platforms s = l1 ++ p :: l2 ->
      Platform.id p = id ->
      distinct_ids (platforms s) ->
      run (updatePlatform id patch) s
      = {| platforms := l1 ++ Patch.apply p patch :: l2;
           transactions := transactions s |})
  /\ ((forall p, In p (platforms s) -> Platform.id p <> id) ->
      run (updatePlatform id patch) s = s).
Proof.
  split.
  - intros l1 p l2 Hs <- Hnd. simpl. f_equal.
    rewrite Hs. rewrite Hs in Hnd.
    apply (map_patch_one (fun q => Patch.apply q patch) l1 p l2 Hnd).
  - intros Hnone. destruct s as [ps ts]. simpl in *. f_equal.
    apply map_unchanged. intros p Hp.
    string_cases (Platform.id p) id; [|reflexivity].
    now destruct (Hnone p Hp).
Qed.

Lemma updatePlatform_demo :
  credits_of "Suno" (run (updatePlatform (demo_uuid 1) (Patch.of_credits (Num.of_Z 5))) demo_state)
  = Some (Num.of_Z 5)
  /\ run (updatePlatform (demo_uuid 40) (Patch.of_credits (Num.of_Z 5))) demo_state
     = demo_state.
Proof.
  destruct (updatePlatform_merges (demo_uuid 1) (Patch.of_credits (Num.of_Z 5)) demo_state)
    as [Hmerge _].
  destruct (updatePlatform_merges (demo_uuid 40) (Patch.of_credits (Num.of_Z 5)) demo_state)
    as [_ Hnone].
  split.
  - rewrite (Hmerge [Platform.mk (demo_uuid 0) "Higgsfield" (Num.of_Z 1000) "#34d399" "credits"
                       "main" (Num.of_Z 0)]
                    demo_suno
                    (preset_platforms demo_uuid 2 (skipn 2 PLATFORM_PRESETS))).
    + vm_compute. reflexivity.
    + reflexivity.
    + reflexivity.
    + distinct_concrete.
  - apply Hnone. intros p Hp. each_platform Hp.
Defined.

(** ** [removePlatform] *)

(** C3. For a store whose platform ids are distinct and a platform [p] of
    it, [removePlatform(p.id)] removes [p] and nothing else from the
    platform collection, and keeps exactly the transactions whose
    [platform] field differs from [p.name], in their order. *)
Theorem removePlatform_exact (s : State) (p : Platform.t) :
  In p (platforms s) ->
  distinct_ids (platforms s) ->
  (exists l1 l2,
      platforms s = l1 ++ p :: l2
      /\ platforms (run (removePlatform s (Platform.id p)) s) = l1 ++ l2)
  /\ transactions (run (removePlatform s (Platform.id p)) s)
     = filter (fun t => negb (Str.eqb (Transaction.platform t) (Platform.name p)))
              (transactions s).
Proof.
  intros Hin Hnd. split.
  - destruct (in_split _ _ Hin) as (l1 & l2 & Hs).
    exists l1, l2. split; [exact Hs|].
    simpl. rewrite Hs. apply filter_out_id. now rewrite <- Hs.
  - simpl. rewrite (find_by_id _ p Hnd Hin). simpl.
    apply filter_ext. intros t.
    unfold Str.eqb. rewrite (String.eqb_sym (Platform.name p)).
    destruct (String.eqb_spec (Transaction.platform t) (Platform.name p)) as [Heq|Hne];
      simpl; [apply andb_false_r|].
    rewrite andb_true_r.
    destruct (platformMap s !! Transaction.platform t) as [q|] eqn:Hq; simpl; [|reflexivity].
    apply platformMap_sound in Hq. destruct Hq as [Hq Hname].
    string_cases (Platform.id q) (Platform.id p); [|reflexivity].
    exfalso. apply Hne. rewrite <- Hname. f_equal.
    now apply (same_id_same_platform (platforms s)).
Qed.

Lemma removePlatform_demo :
  map Platform.name
      (platforms (run (removePlatform demo_state (demo_uuid 1)) demo_state))
  = ["Higgsfield"; "Google Flow"; "Runway"; "Pika"; "Luma"]
  /\ map Transaction.platform
         (transactions (run (removePlatform demo_state (demo_uuid 1)) demo_state))
     = ["Higgsfield"; "Runway"; "Google Flow"; "Pika"; "Luma"].
Proof.
  destruct (removePlatform_exact demo_state demo_suno) as [(l1 & l2 & _ & _) Ht].
  - vm_compute. tauto.
  - distinct_concrete.
  - split; [vm_compute; reflexivity|].
    change (Platform.id demo_suno) with (demo_uuid 1) in Ht.
    rewrite Ht. vm_compute. reflexivity.
Defined.

(** ** Creating platforms *)

(** X19. What the two creators do, for every store and every name.
    [addPlatform] and [addCustomPlatform], given a non-empty name (after
    trimming, for the custom form) that no platform bears up to case,
    append exactly one platform, carrying the drawn id and that name, and
    leave the transactions alone; its balance is 0 for [addPlatform] and
    [Number(credits) || 0] for [addCustomPlatform], which is 0 for an
    absent or NaN field and the requested number otherwise.
    [addPlatform] with the empty name or a name some platform bears
    exactly, and [addCustomPlatform] with an empty trimmed name or a
    name some platform bears up to case, leave the whole store as it
    was. *)
Theorem add_platform_outcomes (uuid : string) (s : State) :
  (forall name,
      name <> "" ->
      (forall q, In q (platforms s) ->
                 Str.toLowerCase (Platform.name q) <> Str.toLowerCase name) ->
      exists p,
        platforms (run (addPlatform uuid s name) s) = platforms s ++ [p]
        /\ List.length (platforms (run (addPlatform uuid s name) s))
           = S (List.length (platforms s))
        /\ Platform.id p = uuid
        /\ Platform.name p = name
        /\ Platform.credits p = Num.of_Z 0
        /\ transactions (run (addPlatform uuid s name) s) = transactions s)
  /\ (forall name,
        name = "" \/ (exists q, In q (platforms s) /\ Platform.name q = name) ->
        run (addPlatform uuid s name) s = s)
  /\ (forall custom,
        trimmed_name custom <> "" ->
        (forall q, In q (platforms s) ->
                   Str.toLowerCase (Platform.name q) <> Str.toLowerCase (trimmed_name custom)) ->
        exists p,
          platforms (run (addCustomPlatform uuid s custom) s) = platforms s ++ [p]
          /\ List.length (platforms (run (addCustomPlatform uuid s custom) s))
             = S (List.length (platforms s))
          /\ Platform.id p = uuid
          /\ Platform.name p = trimmed_name custom
          /\ Platform.credits p = Num.or_zero (Num.Number (CustomForm.credits custom))
          /\ transactions (run (addCustomPlatform uuid s custom) s) = transactions s)
  /\ (forall custom,
        trimmed_name custom = ""
        \/ (exists q, In q (platforms s)
                      /\ Str.toLowerCase (Platform.name q) = Str.toLowerCase (trimmed_name custom)) ->
        run (addCustomPlatform uuid s custom) s = s)
  /\ Num.or_zero (Num.Number None) = Num.of_Z 0
  /\ Num.or_zero (Num.Number (Some Num.NaN)) = Num.of_Z 0
  /\ (forall x, Num.or_zero (Num.Number (Some x)) = x
                \/ ((x = Num.NaN \/ exists sign, x = S754_zero sign)
                    /\ Num.or_zero (Num.Number (Some x)) = Num.of_Z 0)).
Proof.
  repeat apply conj.
  - intros name Hname Hfresh. unfold addPlatform.
    apply truthy_iff in Hname. rewrite Hname. simpl negb. cbv iota.
    rewrite existsb_false.
    + eexists. simpl. repeat split. rewrite length_app. simpl. lia.
    + intros q Hq. unfold Str.eqb. apply String.eqb_neq.
      intros Heq. apply (Hfresh q Hq). now rewrite Heq.
  - intros name [->|(q & Hq & Hname)]; [reflexivity|].
    unfold addPlatform. destruct (Str.truthy name); [|reflexivity]. simpl negb. cbv iota.
    replace (existsb _ (platforms s)) with true; [reflexivity|].
    symmetry. apply existsb_exists. exists q. split; [exact Hq|].
    unfold Str.eqb. now apply String.eqb_eq.
  - intros custom Hname Hfresh. unfold addCustomPlatform. fold (trimmed_name custom).
    apply truthy_iff in Hname. rewrite Hname. simpl negb. cbv iota.
    rewrite existsb_false.
    + eexists. simpl. repeat split. rewrite length_app. simpl. lia.
    + intros q Hq. unfold Str.eqb. apply String.eqb_neq. auto.
  - intros custom H. unfold addCustomPlatform. fold (trimmed_name custom).
    destruct H as [->|(q & Hq & Hname)]; [reflexivity|].
    destruct (Str.truthy (trimmed_name custom)); [|reflexivity]. simpl negb. cbv iota.
    replace (existsb _ (platforms s)) with true; [reflexivity|].
    symmetry. apply existsb_exists. exists q. split; [exact Hq|].
    unfold Str.eqb. now apply String.eqb_eq.
  - reflexivity.
  - reflexivity.
  - intros [sign|sign| |sign m e]; simpl; eauto.
Qed.

Lemma add_platform_demo :
  List.length
    (platforms (run (addCustomPlatform (demo_uuid 12) demo_state
                       (custom_form " Veo3 " (Num.of_Z 250))) demo_state)) = 7%nat
  /\ List.length (platforms (run (addPlatform (demo_uuid 12) without_suno "Suno") without_suno))
     = 6%nat
  /\ run (addCustomPlatform (demo_uuid 12) demo_state (custom_form "SUNO" (Num.of_Z 250)))
         demo_state = demo_state
  /\ run (addPlatform (demo_uuid 12) demo_state "Suno") demo_state = demo_state.
Proof.
  destruct (add_platform_outcomes (demo_uuid 12) demo_state) as (_ & Hdup & Hnew & Hcdup & _).
  destruct (add_platform_outcomes (demo_uuid 12) without_suno) as (Hpreset & _).
  repeat apply conj.
  - destruct (Hnew (custom_form " Veo3 " (Num.of_Z 250))) as (p & _ & Hlen & _).
    + vm_compute. discriminate.
    + intros q Hq. each_platform Hq.
    + rewrite Hlen. vm_compute. reflexivity.
  - destruct (Hpreset "Suno") as (p & _ & Hlen & _).
    + discriminate.
    + intros q Hq. each_platform Hq.
    + rewrite Hlen. vm_compute. reflexivity.
  - apply Hcdup. right. exists demo_suno. vm_compute. tauto.
  - apply Hdup. right. exists demo_suno. vm_compute. tauto.
Defined.

(** ** Names that differ only in case *)

(** C8 at a failing input. In the built-in dataset with Runway renamed
    to [RUNWAY] by the editor, the preset name [Runway] is a duplicate up
    to case; [addPlatform("Runway")] compares names exactly, so instead
    of rejecting the creation and keeping the store it appends a seventh
    platform; the sibling [addCustomPlatform] rejects the same name there
    and keeps the store. *)
Theorem addPlatform_accepts_renamed_duplicate :
  map Platform.name (platforms renamed_runway)
  = ["Higgsfield"; "Suno"; "Google Flow"; "RUNWAY"; "Pika"; "Luma"]
  /\ existsb (fun p => Str.eqb (Str.toLowerCase (Platform.name p)) (Str.toLowerCase "Runway"))
             (platforms renamed_runway) = true
  /\ List.length (platforms with_both_runways) = S (List.length (platforms renamed_runway))
  /\ map Platform.name (platforms with_both_runways)
     = ["Higgsfield"; "Suno"; "Google Flow"; "RUNWAY"; "Pika"; "Luma"; "Runway"]
  /\ with_both_runways <> renamed_runway
  /\ run (addCustomPlatform (demo_uuid 12) renamed_runway (custom_form "Runway" (Num.of_Z 0)))
         renamed_runway = renamed_runway.
Proof.
  repeat apply conj; try (vm_compute; reflexivity).
  intros H. apply (f_equal (fun st => List.length (platforms st))) in H.
  vm_compute in H. discriminate.
Qed.

(** C2 at the failing input. In a store that holds the custom platform
    [suno], [addPlatform("Suno")] compares names exactly, finds none, and
    appends a second platform whose name differs from the first only in
    case; the sibling [addCustomPlatform] rejects the same name there. *)
Theorem addPlatform_ignores_case_variant :
  map Platform.name (platforms with_custom_suno)
  = ["Higgsfield"; "Google Flow"; "Runway"; "Pika"; "Luma"; "suno"]
  /\ existsb (fun p => Str.eqb (Str.toLowerCase (Platform.name p)) (Str.toLowerCase "Suno"))
             (platforms with_custom_suno) = true
  /\ map Platform.name (platforms with_both_sunos)
     = ["Higgsfield"; "Google Flow"; "Runway"; "Pika"; "Luma"; "suno"; "Suno"]
  /\ run (addCustomPlatform (demo_uuid 13) with_custom_suno (custom_form "Suno" (Num.of_Z 0)))
         with_custom_suno = with_custom_suno.
Proof. vm_compute. repeat split; reflexivity. Qed.

(** ** Burn rate and forecast *)

(** C4. [dailyBurn] is the sum of the magnitudes of the negative amounts
    among the transactions dated on or after [now] minus 30 days, divided
    by 30 and rounded to two decimals; when the transactions of the last
    30 days are exactly one of -120 and one of -40 it is 5.33. *)
Theorem dailyBurn_is_rounded_average (Date_parse : string -> option Z) (now : Z) :
  (forall state,
      dailyBurn Date_parse now state = dailyBurn_spec Date_parse now (transactions state))
  /\ (forall state t1 t2,
         last30 Date_parse now state = [t1; t2] ->
         Transaction.amount t1 = Num.of_Z (-120) ->
         Transaction.amount t2 = Num.of_Z (-40) ->
         dailyBurn Date_parse now state = Num.decimal 533 2).
Proof.
  split.
  - intros state.
    assert (Hwindow : last30 Date_parse now state
                      = filter (in_last_30_days Date_parse now) (transactions state))
      by reflexivity.
    unfold dailyBurn, dailyBurn_spec, sum. rewrite Hwindow.
    rewrite <- (filter_twice is_spend (in_last_30_days Date_parse now)).
    rewrite <- fold_left_through_map.
    destruct (filter (in_last_30_days Date_parse now) (transactions state)) as [|t l];
      reflexivity.
  - intros state t1 t2 Hlast H1 H2. unfold dailyBurn. rewrite Hlast.
    destruct t1 as [id1 platform1 amount1 project1 note1 date1].
    destruct t2 as [id2 platform2 amount2 project2 note2 date2].
    simpl in H1, H2. subst amount1 amount2. vm_compute. reflexivity.
Qed.

Lemma dailyBurn_demo :
  dailyBurn Cal.parse_iso_date demo_now burn_state = Num.decimal 533 2.
Proof.
  destruct (dailyBurn_is_rounded_average Cal.parse_iso_date demo_now) as [_ H].
  apply (H burn_state
           (Transaction.mk (demo_uuid 1) "Higgsfield" (Num.of_Z (-120)) "" "" "2025-11-10")
           (Transaction.mk (demo_uuid 2) "Higgsfield" (Num.of_Z (-40)) "" "" "2025-11-09"));
    vm_compute; reflexivity.
Defined.

(** C5. [forecastDays] is the floor of [totalCredits / dailyBurn] when
    [dailyBurn > 0] and the infinite sentinel when [dailyBurn <= 0]; for
    160 credits burning 5.33 a day it is 30. *)
Theorem forecastDays_floor_or_infinite (totalCredits dailyBurn : number) :
  (Num.ltb (Num.of_Z 0) dailyBurn = true ->
   forecastDays totalCredits dailyBurn = Num.floor (Num.div totalCredits dailyBurn))
  /\ (Num.leb dailyBurn (Num.of_Z 0) = true ->
      forecastDays totalCredits dailyBurn = Num.Infinity)
  /\ forecastDays (Num.of_Z 160) (Num.decimal 533 2) = Num.of_Z 30.
Proof.
  unfold forecastDays. split; [|split].
  - intros Hpos.
    replace (Num.leb dailyBurn (Num.of_Z 0)) with false; [reflexivity|].
    destruct dailyBurn as [sign|sign| |sign m e]; try destruct sign;
      vm_compute in Hpos; try discriminate; reflexivity.
  - intros ->. reflexivity.
  - vm_compute. reflexivity.
Qed.

Lemma forecastDays_demo :
  forecastDays (totalCredits burn_state) (dailyBurn Cal.parse_iso_date demo_now burn_state)
  = Num.of_Z 30
  /\ forecastDays (totalCredits burn_state) (Num.of_Z 0) = Num.Infinity.
Proof.
  split.
  - destruct (forecastDays_floor_or_infinite
                (totalCredits burn_state)
                (dailyBurn Cal.parse_iso_date demo_now burn_state)) as (H & _ & _).
    rewrite H; vm_compute; reflexivity.
  - destruct (forecastDays_floor_or_infinite (totalCredits burn_state) (Num.of_Z 0))
      as (_ & H & _).
    apply H. vm_compute. reflexivity.
Defined.

(** ** Loading the stored state *)

(** C7. [loadState] falls back field by field. With no stored value, an
    empty one, or one [JSON.parse] rejects, the whole built-in dataset is
    used. When the stored object has [platforms] but no [transactions]
    key, the stored platforms are kept and the six demo transactions
    stand in for the missing key; symmetrically, stored transactions are
    kept and the six preset platforms stand in for a missing [platforms]
    key. *)
Theorem loadState_falls_back_by_field
  (JSON_parse : string -> option json) (uuid : nat -> string) (now : Z) :
  (forall storage,
      storage = None \/ storage = Some ""
      \/ (exists raw, storage = Some raw /\ JSON_parse raw = None) ->
      loadState JSON_parse uuid now storage = Loaded_of (initialState uuid now))
  /\ (forall raw fields ps,
        raw <> "" ->
        JSON_parse raw = Some (JObject fields) ->
        Json.assoc "platforms" fields = Some ps ->
        ps <> JNull ->
        Json.assoc "transactions" fields = None ->
        loadState JSON_parse uuid now (Some raw)
        = {| loaded_platforms := ps;
             loaded_transactions := Json.of_transactions (demoTransactions uuid now 6) |})
  /\ (forall raw fields ts,
        raw <> "" ->
        JSON_parse raw = Some (JObject fields) ->
        Json.assoc "platforms" fields = None ->
        Json.assoc "transactions" fields = Some ts ->
        ts <> JNull ->
        loadState JSON_parse uuid now (Some raw)
        = {| loaded_platforms :=
               Json.of_platforms (preset_platforms uuid 0 PLATFORM_PRESETS);
             loaded_transactions := ts |})
  /\ (exists items, Json.of_transactions (demoTransactions uuid now 6) = JArray items
                    /\ List.length items = 6%nat)
  /\ (exists items, Json.of_platforms (preset_platforms uuid 0 PLATFORM_PRESETS) = JArray items
                    /\ List.length items = 6%nat).
Proof.
  repeat apply conj.
  - intros storage [->|[->|(raw & -> & Hparse)]]; try reflexivity.
    unfold loadState. rewrite Hparse. now destruct (Str.truthy raw).
  - intros raw fields ps Hraw Hparse Hps Hnull Hts.
    unfold loadState. apply truthy_iff in Hraw. rewrite Hraw, Hparse. simpl.
    rewrite Hps, Hts. simpl. f_equal. destruct ps; congruence.
  - intros raw fields ts Hraw Hparse Hps Hts Hnull.
    unfold loadState. apply truthy_iff in Hraw. rewrite Hraw, Hparse. simpl.
    rewrite Hps, Hts. simpl. f_equal. destruct ts; congruence.
  - eexists. split; reflexivity.
  - eexists. split; reflexivity.
Qed.

Lemma loadState_demo :
  loadState demo_JSON_parse demo_uuid demo_now (Some stored_platforms_only)
  = {| loaded_platforms := JArray [];
       loaded_transactions := Json.of_transactions (demoTransactions demo_uuid demo_now 6) |}
  /\ loadState demo_JSON_parse demo_uuid demo_now (Some "{oops") = Loaded_of demo_state.
Proof.
  destruct (loadState_falls_back_by_field demo_JSON_parse demo_uuid demo_now)
    as (Hbad & Hplatforms & _).
  split.
  - apply (Hplatforms stored_platforms_only [("platforms", JArray [])] (JArray []));
      try reflexivity; discriminate.
  - apply Hbad. right. right. exists "{oops". split; reflexivity.
Defined.

(** ** The transaction view *)

Section Sorting.

Context {A : Type}.
Variable compareFn : A -> A -> comparison.

Lemma insert_permutation x l : Permutation (insert compareFn x l) (x :: l).
Proof.
  induction l as [|y l IH]; simpl; [reflexivity|].
  destruct (compareFn x y); try reflexivity.
  rewrite IH. apply perm_swap.
Qed.

Lemma sort_permutation l : Permutation (sort compareFn l) l.
Proof.
  induction l as [|x l IH]; simpl; [reflexivity|].
  rewrite insert_permutation. now constructor.
Qed.

(** A class of elements none of which is ever moved past another keeps
    its order through an insertion, hence through the sort. *)
Lemma insert_keeps_class (p : A -> bool) x l :
  (forall a b, p a = true -> p b = true -> before compareFn a b) ->
  filter p (insert compareFn x l) = filter p (x :: l).
Proof.
  intros Hclass. induction l as [|y l IH]; simpl; [reflexivity|].
  destruct (compareFn x y) eqn:Hxy; try reflexivity.
  simpl. rewrite IH. simpl.
  destruct (p x) eqn:Hx, (p y) eqn:Hy; try reflexivity.
  exfalso. now apply (Hclass x y).
Qed.

Lemma sort_keeps_class (p : A -> bool) l :
  (forall a b, p a = true -> p b = true -> before compareFn a b) ->
  filter p (sort compareFn l) = filter p l.
Proof.
  intros Hclass. induction l as [|x l IH]; simpl; [reflexivity|].
  rewrite insert_keeps_class by exact Hclass. simpl. now rewrite IH.
Qed.

Hypothesis total : forall x y, compareFn x y = Gt -> before compareFn y x.
Hypothesis transitive :
  forall x y z, before compareFn x y -> before compareFn y z -> before compareFn x z.

Lemma insert_sorted x l :
  StronglySorted (before compareFn) l ->
  StronglySorted (before compareFn) (insert compareFn x l).
Proof.
  induction 1 as [|y l Hl IH Hy]; simpl.
  - repeat constructor.
  - destruct (compareFn x y) eqn:Hxy.
    + constructor; [now constructor|].
      assert (Hb : before compareFn x y) by (unfold before; congruence).
      constructor; [exact Hb|].
      eapply Forall_impl; [|exact Hy]. intros z. now apply transitive.
    + constructor; [now constructor|].
      assert (Hb : before compareFn x y) by (unfold before; congruence).
      constructor; [exact Hb|].
      eapply Forall_impl; [|exact Hy]. intros z. now apply transitive.
    + constructor; [exact IH|].
      apply (Permutation_Forall (Permutation_sym (insert_permutation x l))).
      constructor; [|exact Hy]. now apply total.
Qed.

Lemma sort_sorted l : StronglySorted (before compareFn) (sort compareFn l).
Proof.
  induction l as [|x l IH]; simpl; [constructor|]. now apply insert_sorted.
Qed.

End Sorting.

(** C9 (as amended). For a [localeCompare] that is a consistent
    comparison, the view holds exactly the transactions whose platform is
    the selected name (all of them under [All]), ordered by date
    descending under the comparison of the date strings; transactions
    with the same date keep the order they have in the collection. *)
Theorem filteredTxns_sorted_and_stable
  (localeCompare : string -> string -> comparison)
  (compare_refl : forall a, localeCompare a a = Eq)
  (compare_antisym : forall a b, localeCompare a b = CompOpp (localeCompare b a))
  (compare_trans : forall a b c,
      localeCompare a b <> Gt -> localeCompare b c <> Gt -> localeCompare a c <> Gt)
  (state : State) (filter_ : string) :
  (forall t, In t (filteredTxns localeCompare state filter_)
             <-> In t (transactions state)
                 /\ (filter_ = "All" \/ Transaction.platform t = filter_))
  /\ Permutation (filteredTxns localeCompare state filter_)
                 (filter (selected filter_) (transactions state))
  /\ StronglySorted
       (fun a b => localeCompare (Transaction.date b) (Transaction.date a) <> Gt)
       (filteredTxns localeCompare state filter_)
  /\ (forall d,
         filter (fun t => Str.eqb (Transaction.date t) d)
                (filteredTxns localeCompare state filter_)
         = filter (fun t => Str.eqb (Transaction.date t) d)
                  (filter (selected filter_) (transactions state))).
Proof.
  assert (Hperm : Permutation (filteredTxns localeCompare state filter_)
                              (filter (selected filter_) (transactions state)))
    by apply sort_permutation.
  repeat apply conj.
  - intros t. split.
    + intros Hin. apply (Permutation_in _ Hperm) in Hin.
      apply filter_In in Hin. destruct Hin as [Hin Hsel]. split; [exact Hin|].
      unfold selected, Str.eqb in Hsel.
      destruct (String.eqb_spec filter_ "All"); [now left|right].
      now apply String.eqb_eq.
    + intros [Hin Hsel]. apply (Permutation_in _ (Permutation_sym Hperm)).
      apply filter_In. split; [exact Hin|].
      unfold selected, Str.eqb.
      destruct (String.eqb_spec filter_ "All"); [reflexivity|].
      destruct Hsel as [?|Hsel]; [contradiction|]. now apply String.eqb_eq.
  - exact Hperm.
  - apply (sort_sorted (byDateDesc localeCompare)).
    + intros x y. unfold before, byDateDesc. rewrite compare_antisym.
      destruct (localeCompare (Transaction.date x) (Transaction.date y)); simpl; congruence.
    + intros x y z. unfold before, byDateDesc. intros Hxy Hyz.
      now apply (compare_trans _ (Transaction.date y)).
  - intros d. apply sort_keeps_class.
    intros a b Ha Hb. unfold before, byDateDesc.
    apply String.eqb_eq in Ha, Hb. rewrite Ha, Hb, compare_refl. discriminate.
Qed.

Lemma string_compare_trans a b c :
  String.compare a b <> Gt -> String.compare b c <> Gt -> String.compare a c <> Gt.
Proof.
  intros Hab Hbc Hac.
  assert (Hca : OrderedTypeEx.String_as_OT.lt c a).
  { apply OrderedTypeEx.String_as_OT.cmp_lt.
    unfold OrderedTypeEx.String_as_OT.cmp.
    rewrite String.compare_antisym, Hac. reflexivity. }
  assert (Hle : forall x y, String.compare x y <> Gt ->
                            x = y \/ OrderedTypeEx.String_as_OT.lt x y).
  { intros x y H. destruct (String.compare x y) eqn:E; [left|right|congruence].
    - now apply String.compare_eq_iff.
    - now apply OrderedTypeEx.String_as_OT.cmp_lt. }
  apply Hle in Hab, Hbc.
  assert (Hcc : OrderedTypeEx.String_as_OT.lt c c).
  { destruct Hab as [->|Hab], Hbc as [->|Hbc]; auto.
    - eapply OrderedTypeEx.String_as_OT.lt_trans; eauto.
    - eapply OrderedTypeEx.String_as_OT.lt_trans; eauto.
    - eapply OrderedTypeEx.String_as_OT.lt_trans; [exact Hca|].
      eapply OrderedTypeEx.String_as_OT.lt_trans; eauto. }
  apply (OrderedTypeEx.String_as_OT.lt_not_eq _ _ Hcc). reflexivity.
Qed.

Lemma string_compare_refl a : String.compare a a = Eq.
Proof. now apply OrderedTypeEx.String_as_OT.cmp_eq. Qed.

(** C9, as stated, fails: two transactions of the same date appear in the
    view in the order of the collection, so that swapping them in the
    collection swaps them in the view; nothing but insertion order
    decides between them. *)
Lemma filteredTxns_ties_follow_insertion_order :
  Transaction.date txn_a = Transaction.date txn_b
  /\ filteredTxns String.compare (mkState [] [txn_c; txn_a; txn_b]) "All"
     = [txn_a; txn_b; txn_c]
  /\ filteredTxns String.compare (mkState [] [txn_c; txn_b; txn_a]) "All"
     = [txn_b; txn_a; txn_c].
Proof. vm_compute. repeat split; reflexivity. Qed.

Lemma filteredTxns_demo :
  filter (fun t => Str.eqb (Transaction.date t) "2025-11-10")
         (filteredTxns String.compare (mkState [] [txn_c; txn_b; txn_a]) "All")
  = [txn_b; txn_a]
  /\ Permutation (filteredTxns String.compare (mkState [] [txn_c; txn_b; txn_a]) "Suno")
                 [txn_c; txn_a].
Proof.
  destruct (filteredTxns_sorted_and_stable String.compare string_compare_refl
              String.compare_antisym string_compare_trans
              (mkState [] [txn_c; txn_b; txn_a]) "All") as (_ & _ & _ & Hstable).
  destruct (filteredTxns_sorted_and_stable String.compare string_compare_refl
              String.compare_antisym string_compare_trans
              (mkState [] [txn_c; txn_b; txn_a]) "Suno") as (_ & Hperm & _ & _).
  split.
  - rewrite Hstable. reflexivity.
  - exact Hperm.
Defined.

(** ** CSV export *)

Section Csv_facts.

Variable Number_toString : number -> string.

Lemma add_char_field c f rows :
  Csv.add_char c (Csv.add_field f rows) = Csv.add_field (String c f) rows.
Proof. destruct rows; reflexivity. Qed.

(** Inside a quoted field: the escaped value and its closing quote read
    back as the value, provided no quote follows the closing one. *)
Lemma read_escaped v rest :
  Csv.opens_quote rest = false ->
  Csv.read true (Str.replaceAll Str.dquote (quote +:+ quote) v +:+ String Str.dquote rest)
  = Csv.add_field v (Csv.read false rest).
Proof.
  intros Hrest. induction v as [|x v IH].
  - change (Csv.read true (String Str.dquote rest) = Csv.add_field EmptyString (Csv.read false rest)).
    destruct rest as [|c rest]; [reflexivity|].
    simpl in Hrest. cbn [Csv.read]. rewrite Ascii.eqb_refl, Hrest. reflexivity.
  - cbn [Str.replaceAll]. destruct (Ascii.eqb x Str.dquote) eqn:Hx.
    + apply Ascii.eqb_eq in Hx. subst x.
      change (Csv.add_char Str.dquote
                (Csv.read true
                   (Str.replaceAll Str.dquote (quote +:+ quote) v +:+ String Str.dquote rest))
              = Csv.add_field (String Str.dquote v) (Csv.read false rest)).
      rewrite IH. apply add_char_field.
    + change (Csv.read true
                (String x (Str.replaceAll Str.dquote (quote +:+ quote) v
                           +:+ String Str.dquote rest))
              = Csv.add_field (String x v) (Csv.read false rest)).
      cbn [Csv.read]. rewrite Hx, IH. apply add_char_field.
Qed.

Lemma read_quoted v rest :
  Csv.opens_quote rest = false ->
  Csv.read false (quoted Number_toString v +:+ rest)
  = Csv.add_field (String_ Number_toString v) (Csv.read false rest).
Proof.
  intros Hrest. unfold quoted.
  rewrite !append_assoc.
  change (Csv.read true
            (Str.replaceAll Str.dquote (quote +:+ quote) (String_ Number_toString v)
             +:+ String Str.dquote rest)
          = Csv.add_field (String_ Number_toString v) (Csv.read false rest)).
  now apply read_escaped.
Qed.

Lemma read_row r rest :
  Csv.opens_quote rest = false ->
  Csv.read false (row_text Number_toString r +:+ rest)
  = fold_right Csv.add_field (Csv.read false rest) (map (String_ Number_toString) r).
Proof.
  intros Hrest. unfold row_text, Str.join.
  induction r as [|v r IH]; [reflexivity|].
  destruct r as [|v2 r].
  - simpl. now apply read_quoted.
  - change (concat "," (map (quoted Number_toString) (v :: v2 :: r)))
      with (quoted Number_toString v
            +:+ String "," (concat "," (map (quoted Number_toString) (v2 :: r)))).
    rewrite append_assoc. rewrite read_quoted by reflexivity.
    change (Csv.read false
              (String "," (concat "," (map (quoted Number_toString) (v2 :: r))) +:+ rest))
      with (Csv.read false (concat "," (map (quoted Number_toString) (v2 :: r)) +:+ rest)).
    rewrite IH. reflexivity.
Qed.

Lemma add_fields_head fs r rs :
  fold_right Csv.add_field (r :: rs) fs = (fs ++ r) :: rs.
Proof. induction fs as [|f fs IH]; simpl; [reflexivity|]. now rewrite IH. Qed.

Lemma make_cons r r2 rows :
  make Number_toString (r :: r2 :: rows)
  = row_text Number_toString r +:+ String Str.newline (make Number_toString (r2 :: rows)).
Proof. reflexivity. Qed.

(** Reading back what [make] wrote gives the table, whatever its cells
    hold. *)
Lemma records_make r rows :
  Csv.records (make Number_toString (r :: rows))
  = map (map (String_ Number_toString)) (r :: rows).
Proof.
  unfold Csv.records. revert r. induction rows as [|r2 rows IH]; intros r.
  - change (make Number_toString [r]) with (row_text Number_toString r).
    rewrite <- (append_empty (row_text Number_toString r)), read_row by reflexivity.
    change (Csv.read false EmptyString) with [@nil string].
    rewrite add_fields_head, app_nil_r. reflexivity.
  - rewrite make_cons, read_row by reflexivity.
    change (Csv.read false (String Str.newline (make Number_toString (r2 :: rows))))
      with ([] :: Csv.read false (make Number_toString (r2 :: rows))).
    rewrite add_fields_head, app_nil_r, IH. reflexivity.
Qed.

Lemma split_nonempty c s : Str.split c s <> [].
Proof.
  destruct s as [|x s]; simpl; [discriminate|].
  destruct (Ascii.eqb x c); [discriminate|].
  destruct (Str.split c s); discriminate.
Qed.

Lemma split_append c a b :
  Str.split c (a +:+ String c b) = Str.split c a ++ Str.split c b.
Proof.
  induction a as [|x a IH].
  - change (Str.split c (String c b) = [EmptyString] ++ Str.split c b).
    simpl. now rewrite Ascii.eqb_refl.
  - change (Str.split c (String x (a +:+ String c b)) = Str.split c (String x a) ++ Str.split c b).
    cbn [Str.split]. rewrite IH.
    destruct (Ascii.eqb x c); [reflexivity|].
    destruct (Str.split c a) eqn:E; [|reflexivity].
    now apply split_nonempty in E.
Qed.

End Csv_facts.

(** C6. The export is the line [Balances], the balance table, an empty
    line, the line [Transactions] and the transaction table. Each table
    is written with every field between quotes, inner quotes doubled,
    fields joined by commas and rows by newlines, under the stated
    headers; read back along its row boundaries it yields the header and
    then one row per platform or transaction, cell for cell, whatever
    quotes or newlines the values contain.  On the table of the
    development test, with its quote inside [B2] and its newline inside
    [C3], the text is as displayed, reads back as two rows, and splits on
    bare newlines into the three pieces the test asserts. *)
Theorem exportCSV_layout_and_rows (Number_toString : number -> string) (state : State) :
  Str.split Str.newline (exportCSV Number_toString state)
  = "Balances"
      :: Str.split Str.newline (make Number_toString (headers1 :: rows1 state))
      ++ EmptyString
      :: "Transactions"
      :: Str.split Str.newline (make Number_toString (headers2 :: rows2 state))
  /\ Csv.records (make Number_toString (headers1 :: rows1 state))
     = ["Platform"; "Credits"; "Unit"; "MonthlyAllowance"; "Account"]
         :: map (map (String_ Number_toString)) (rows1 state)
  /\ Csv.records (make Number_toString (headers2 :: rows2 state))
     = ["Date"; "Platform"; "Amount"; "Project"; "Note"]
         :: map (map (String_ Number_toString)) (rows2 state)
  /\ List.length (Csv.records (make Number_toString (headers1 :: rows1 state)))
     = S (List.length (platforms state))
  /\ List.length (Csv.records (make Number_toString (headers2 :: rows2 state)))
     = S (List.length (transactions state))
  /\ (forall header rows,
         Csv.records (make Number_toString (header :: rows))
         = map (map (String_ Number_toString)) (header :: rows))
  /\ make Number_toString devTest_rows
     = quote +:+ "A,1" +:+ quote +:+ "," +:+ quote +:+ "B" +:+ quote +:+ quote +:+ "2" +:+ quote
         +:+ "," +:+ quote +:+ "C" +:+ nl +:+ "3" +:+ quote +:+ nl
         +:+ quote +:+ "x" +:+ quote +:+ "," +:+ quote +:+ "y" +:+ quote +:+ ","
         +:+ quote +:+ "z" +:+ quote
  /\ Csv.records (make Number_toString devTest_rows)
     = [ ["A,1"; "B" +:+ quote +:+ "2"; "C" +:+ nl +:+ "3"]; ["x"; "y"; "z"] ]
  /\ runDevTests Number_toString = (true, true).
Proof.
  repeat apply conj.
  - unfold exportCSV.
    change (Str.split Str.newline
              ("Balances" +:+ String Str.newline
                 (make Number_toString (headers1 :: rows1 state) +:+ String Str.newline
                    (EmptyString +:+ String Str.newline
                       ("Transactions" +:+ String Str.newline
                          (make Number_toString (headers2 :: rows2 state))))))
            = "Balances"
                :: Str.split Str.newline (make Number_toString (headers1 :: rows1 state))
                ++ EmptyString
                :: "Transactions"
                :: Str.split Str.newline (make Number_toString (headers2 :: rows2 state))).
    rewrite !split_append. reflexivity.
  - now rewrite records_make.
  - now rewrite records_make.
  - rewrite records_make. simpl. unfold rows1. now rewrite !length_map.
  - rewrite records_make. simpl. unfold rows2. now rewrite !length_map.
  - intros header rows. apply records_make.
  - reflexivity.
  - reflexivity.
  - reflexivity.
Qed.

(** * Further properties of the store *)

(** ** Removing twice, or what is not there *)

Lemma removePlatform_absent (state : State) (id : string) :
  (forall p, In p (platforms state) -> Platform.id p <> id) ->
  run (removePlatform state id) state = state.
Proof.
  intros Habsent. destruct state as [ps ts]. simpl in *. f_equal.
  - apply filter_all. intros p Hp. unfold Str.eqb.
    apply negb_true_iff, String.eqb_neq. auto.
  - apply filter_all. intros t _.
    rewrite (find_no_match _ ps).
    + rewrite andb_true_r.
      destruct (platformMap (mkState ps ts) !! Transaction.platform t) as [q|] eqn:Hq;
        [|reflexivity].
      apply platformMap_sound in Hq. destruct Hq as [Hq _]. simpl in *.
      unfold Str.eqb. apply negb_true_iff, String.eqb_neq. auto.
    + intros p Hp. unfold Str.eqb. apply String.eqb_neq. auto.
Qed.

(** X2. [removePlatform(id)] is a no-op on a store in which no platform
    carries [id], and removing the same id a second time, in the render
    that follows the first removal, changes nothing more. *)
Theorem removePlatform_absent_or_repeated (s : State) (id : string) :
  ((forall p, In p (platforms s) -> Platform.id p <> id) ->
   run (removePlatform s id) s = s)
  /\ then_run (removePlatform s id) (fun s1 => removePlatform s1 id) s
     = run (removePlatform s id) s.
Proof.
  split; [apply removePlatform_absent|].
  unfold then_run. apply removePlatform_absent.
  intros p Hp. simpl in Hp. apply filter_In in Hp. destruct Hp as [_ Hp].
  unfold Str.eqb in Hp. now apply negb_true_iff, String.eqb_neq in Hp.
Qed.

Lemma removePlatform_absent_demo :
  run (removePlatform demo_state (demo_uuid 40)) demo_state = demo_state.
Proof.
  destruct (removePlatform_absent_or_repeated demo_state (demo_uuid 40)) as [H _].
  apply H. intros p Hp. each_platform Hp.
Defined.

(** ** Invariants of the store *)

Lemma NoDup_snoc {A} (l : list A) x : List.NoDup l -> ~ In x l -> List.NoDup (l ++ [x]).
Proof.
  induction l as [|y l IH]; simpl; intros Hnd Hx.
  - repeat constructor. tauto.
  - inversion Hnd as [|? ? Hy Hl]; subst. constructor.
    + rewrite in_app_iff. simpl. intuition congruence.
    + apply IH; tauto.
Qed.

Lemma NoDup_map_filter {A K} (key : A -> K) (f : A -> bool) (l : list A) :
  List.NoDup (map key l) -> List.NoDup (map key (filter f l)).
Proof.
  induction l as [|x l IH]; simpl; intros Hnd; [constructor|].
  inversion Hnd as [|? ? Hx Hl]; subst.
  destruct (f x); simpl; [|auto]. constructor; [|auto].
  intros Hin. apply Hx. apply in_map_iff in Hin. destruct Hin as (y & Hy & Hin).
  apply filter_In in Hin. apply in_map_iff. exists y. tauto.
Qed.

Lemma map_key_kept {A K} (key : A -> K) (f : A -> A) (l : list A) :
  (forall x, key (f x) = key x) -> map key (map f l) = map key l.
Proof.
  intros Hkey. rewrite map_map. apply map_ext. exact Hkey.
Qed.

Lemma patched_key_kept {K} (key : Platform.t -> K) (id : string) (patch : Patch.t) l :
  (forall p, key (Patch.apply p patch) = key p) ->
  map key (map (fun p => if Str.eqb (Platform.id p) id then Patch.apply p patch else p) l)
  = map key l.
Proof.
  intros Hkey. apply map_key_kept. intros p.
  destruct (Str.eqb (Platform.id p) id); auto.
Qed.

(** X3. Every handler keeps platform ids distinct, the creating ones
    given a drawn id no platform carries yet; [updatePlatform] keeps them
    whatever the patch.  Transaction ids stay distinct through [onCreate]
    with a fresh id and through [removePlatform]. *)
Theorem ids_stay_distinct (uuid : string) (s : State) :
  (distinct_ids (platforms s) ->
   (forall name,
       ~ In uuid (map Platform.id (platforms s)) ->
       distinct_ids (platforms (run (addPlatform uuid s name) s)))
   /\ (forall custom,
          ~ In uuid (map Platform.id (platforms s)) ->
          distinct_ids (platforms (run (addCustomPlatform uuid s custom) s)))
   /\ (forall id patch, distinct_ids (platforms (run (updatePlatform id patch) s)))
   /\ (forall id, distinct_ids (platforms (run (removePlatform s id) s)))
   /\ (forall t, distinct_ids (platforms (run (onCreate uuid s t) s))))
  /\ (distinct_txn_ids (transactions s) ->
      (forall t,
          ~ In uuid (map Transaction.id (transactions s)) ->
          distinct_txn_ids (transactions (run (onCreate uuid s t) s)))
      /\ (forall id, distinct_txn_ids (transactions (run (removePlatform s id) s)))).
Proof.
  unfold distinct_ids, distinct_txn_ids. split.
  - intros Hnd. repeat apply conj.
    + intros name Hfresh. unfold addPlatform.
      destruct (negb (Str.truthy name)); [exact Hnd|].
      destruct (existsb _ (platforms s)); [exact Hnd|].
      simpl. rewrite map_app. now apply NoDup_snoc.
    + intros custom Hfresh. unfold addCustomPlatform.
      destruct (negb (Str.truthy _)); [exact Hnd|].
      destruct (existsb _ (platforms s)); [exact Hnd|].
      simpl. rewrite map_app. now apply NoDup_snoc.
    + intros id patch. simpl. now rewrite patched_key_kept.
    + intros id. simpl. now apply NoDup_map_filter.
    + intros t. unfold onCreate.
      destruct (find _ (platforms s)); simpl; [|exact Hnd].
      now rewrite patched_key_kept.
  - intros Hnd. split.
    + intros t Hfresh. unfold onCreate.
      destruct (find _ (platforms s)); simpl; now constructor.
    + intros id. simpl. now apply NoDup_map_filter.
Qed.

Lemma ids_stay_distinct_demo :
  distinct_ids (platforms (run (addCustomPlatform (demo_uuid 12) demo_state
                                  (custom_form "Veo3" (Num.of_Z 250))) demo_state))
  /\ distinct_txn_ids
       (transactions (run (onCreate (demo_uuid 12) demo_state demo_txn) demo_state)).
Proof.
  destruct (ids_stay_distinct (demo_uuid 12) demo_state) as [Hp Ht].
  split.
  - destruct Hp as (_ & H & _); [distinct_concrete|].
    apply H. vm_compute. intuition discriminate.
  - destruct Ht as (H & _).
    + unfold distinct_txn_ids. vm_compute.
      repeat (constructor; [simpl; intuition discriminate|]); constructor.
    + apply H. vm_compute. intuition discriminate.
Defined.

(** X4. Names unique up to case stay so through [addCustomPlatform],
    whatever the form, through [removePlatform] and through the drawer's
    [onCreate]. *)
Theorem names_stay_unique (uuid : string) (s : State) :
  unique_names (platforms s) ->
  (forall custom, unique_names (platforms (run (addCustomPlatform uuid s custom) s)))
  /\ (forall id, unique_names (platforms (run (removePlatform s id) s)))
  /\ (forall t, unique_names (platforms (run (onCreate uuid s t) s))).
Proof.
  unfold unique_names. intros Hnd. repeat apply conj.
  - intros custom. unfold addCustomPlatform.
    destruct (negb (Str.truthy _)); [exact Hnd|].
    destruct (existsb _ (platforms s)) eqn:Hex; [exact Hnd|].
    simpl. rewrite map_app. apply NoDup_snoc; [exact Hnd|].
    simpl. intros Hin. apply in_map_iff in Hin. destruct Hin as (q & Hq & Hin).
    assert (Htrue : existsb
              (fun p => Str.eqb (Str.toLowerCase (Platform.name p))
                                (Str.toLowerCase
                                   (Str.trim (Str.or_else (CustomForm.name custom) ""))))
              (platforms s) = true).
    { apply existsb_exists. exists q. split; [exact Hin|].
      unfold Str.eqb. now apply String.eqb_eq. }
    congruence.
  - intros id. simpl. now apply NoDup_map_filter.
  - intros t. unfold onCreate.
    destruct (find _ (platforms s)); simpl; [|exact Hnd].
    now rewrite patched_key_kept.
Qed.

Lemma names_stay_unique_demo :
  unique_names (platforms (run (addCustomPlatform (demo_uuid 12) demo_state
                                  (custom_form "suno" (Num.of_Z 0))) demo_state))
  /\ unique_names (platforms (run (addCustomPlatform (demo_uuid 12) accented_state
                                     (custom_form (e_acute +:+ "cho") (Num.of_Z 0)))
                                accented_state))
  /\ unique_names (platforms (run (addCustomPlatform (demo_uuid 12) accented_state
                                     (custom_form (nbsp +:+ "Veo3") (Num.of_Z 0)))
                                accented_state)).
Proof.
  destruct (names_stay_unique (demo_uuid 12) demo_state) as (H & _).
  - unfold unique_names. vm_compute.
    repeat (constructor; [simpl; intuition discriminate|]); constructor.
  - destruct (names_stay_unique (demo_uuid 12) accented_state) as (H' & _).
    + unfold unique_names. vm_compute.
      repeat (constructor; [simpl; intuition discriminate|]); constructor.
    + repeat split; [apply H|apply H'|apply H'].
Defined.

(** ** Signs of sums and quotients *)

Lemma of_Z_0 : Num.of_Z 0 = S754_zero false.
Proof. reflexivity. Qed.

(** Rounding puts the sign it is given on whatever it returns. *)
Lemma round_aux_sign s m e l : signed_as s (binary_round_aux Num.prec Num.emax s m e l).
Proof.
  unfold binary_round_aux.
  destruct (shr_fexp Num.prec Num.emax m e l) as [mrs e'].
  destruct (shr_fexp Num.prec Num.emax _ e' loc_Exact) as [mrs2 e2].
  destruct (shr_m mrs2); simpl; auto.
  destruct (Z.leb e2 _); simpl; auto.
Qed.

Lemma round_aux_opp s m e l :
  binary_round_aux Num.prec Num.emax (negb s) m e l
  = SFopp (binary_round_aux Num.prec Num.emax s m e l).
Proof.
  unfold binary_round_aux.
  destruct (shr_fexp Num.prec Num.emax m e l) as [mrs e'].
  destruct (shr_fexp Num.prec Num.emax _ e' loc_Exact) as [mrs2 e2].
  destruct (shr_m mrs2); simpl; auto.
  destruct (Z.leb e2 _); simpl; auto.
Qed.

Lemma round_sign s m e : signed_as s (binary_round Num.prec Num.emax s m e).
Proof.
  unfold binary_round. destruct (shl_align m e _) as [mz ez]. apply round_aux_sign.
Qed.

Lemma round_opp m e :
  binary_round Num.prec Num.emax true m e
  = SFopp (binary_round Num.prec Num.emax false m e).
Proof.
  unfold binary_round. destruct (shl_align m e _) as [mz ez].
  apply (round_aux_opp false).
Qed.

Lemma signed_clear x : signed_as false x -> sign_clear x = true.
Proof. destruct x; simpl; intros; subst; reflexivity. Qed.

(** The sum of two finite numbers of clear sign, as [SFadd] forms it. *)
Lemma add_finite_clear m1 e1 m2 e2 :
  Num.add (S754_finite false m1 e1) (S754_finite false m2 e2)
  = binary_round Num.prec Num.emax false
      (fst (shl_align m1 e1 (Z.min e1 e2)) + fst (shl_align m2 e2 (Z.min e1 e2)))%positive
      (Z.min e1 e2).
Proof. reflexivity. Qed.

Lemma add_finite_set m1 e1 m2 e2 :
  Num.add (S754_finite true m1 e1) (S754_finite true m2 e2)
  = binary_round Num.prec Num.emax true
      (fst (shl_align m1 e1 (Z.min e1 e2)) + fst (shl_align m2 e2 (Z.min e1 e2)))%positive
      (Z.min e1 e2).
Proof. reflexivity. Qed.

Lemma add_clear g a :
  sign_clear g = true -> sign_clear a = true -> sign_clear (Num.add g a) = true.
Proof.
  destruct g as [sg|sg| |sg mg eg], a as [sa|sa| |sa ma ea]; cbn [sign_clear];
    intros Hg Ha; try apply negb_true_iff in Hg; try apply negb_true_iff in Ha;
    subst; try reflexivity.
  rewrite add_finite_clear. apply signed_clear, round_sign.
Qed.

Lemma abs_clear x : sign_clear (Num.abs x) = true.
Proof. destruct x; reflexivity. Qed.

Lemma abs_of_clear x : sign_clear x = true -> Num.abs x = x.
Proof.
  destruct x as [s|s| |s m e]; simpl; intros H; try apply negb_true_iff in H;
    subst; reflexivity.
Qed.

Lemma abs_opp x : Num.abs (SFopp x) = Num.abs x.
Proof. destruct x; reflexivity. Qed.

Lemma div_clear x y :
  sign_clear x = true -> sign_clear y = true -> sign_clear (Num.div x y) = true.
Proof.
  destruct x as [sx|sx| |sx mx ex], y as [sy|sy| |sy my ey]; cbn [sign_clear];
    intros Hx Hy; try apply negb_true_iff in Hx; try apply negb_true_iff in Hy;
    subst; try reflexivity.
  unfold Num.div, SFdiv. cbn [xorb].
  destruct (SFdiv_core_binary Num.prec Num.emax (Z.pos mx) ex (Z.pos my) ey) as [[mz ez] lz].
  apply signed_clear. apply (round_aux_sign false).
Qed.

Lemma toFixed_clear x f : sign_clear x = true -> sign_clear (Num.toFixed x f) = true.
Proof.
  destruct x as [s|s| |s m e]; cbn [sign_clear]; intros H; try apply negb_true_iff in H;
    subst; try reflexivity.
  unfold Num.toFixed.
  destruct (_ <=? _); [reflexivity|].
  destruct (Num.toFixed_digits f m e); try reflexivity.
  apply (div_clear (S754_finite false p 0) (S754_finite false _ 0)); reflexivity.
Qed.

Lemma clear_not_negative x : sign_clear x = true -> Num.ltb x (Num.of_Z 0) = false.
Proof.
  rewrite of_Z_0.
  destruct x as [s|s| |s m e]; simpl; intros H; try apply negb_true_iff in H;
    subst; reflexivity.
Qed.

Lemma negative_cases a :
  Num.ltb a (Num.of_Z 0) = true ->
  a = S754_infinity true \/ exists m e, a = S754_finite true m e.
Proof.
  rewrite of_Z_0.
  destruct a as [s|s| |s m e]; try destruct s; try discriminate; eauto.
Qed.

Lemma sum_of_magnitudes_clear (l : list Transaction.t) g :
  sign_clear g = true ->
  sign_clear (fold_left (fun a t => Num.add a (Num.abs (Transaction.amount t))) l g) = true.
Proof.
  revert g. induction l as [|t l IH]; simpl; intros g Hg; [exact Hg|].
  apply IH. apply add_clear; [exact Hg|apply abs_clear].
Qed.

(** X5. [dailyBurn] is never negative: it is NaN or a number whose sign
    bit is clear, so the test [dailyBurn < 0] is false for every store,
    date parser and clock. *)
Theorem dailyBurn_not_negative (Date_parse : string -> option Z) (now : Z) (state : State) :
  sign_clear (dailyBurn Date_parse now state) = true
  /\ Num.ltb (dailyBurn Date_parse now state) (Num.of_Z 0) = false.
Proof.
  assert (H : sign_clear (dailyBurn Date_parse now state) = true).
  { unfold dailyBurn. destruct (Nat.eqb _ 0); [reflexivity|].
    apply toFixed_clear. apply div_clear; [|reflexivity].
    now apply sum_of_magnitudes_clear. }
  split; [exact H|now apply clear_not_negative].
Qed.

(** ** The platform card against the dashboard *)

(** Adding a negative amount to the mirror image of a sum of clear sign
    mirrors adding its magnitude. *)
Lemma add_mirror g a :
  sign_clear g = true -> Num.ltb a (Num.of_Z 0) = true ->
  Num.add (SFopp g) a = SFopp (Num.add g (Num.abs a)).
Proof.
  intros Hg Ha. apply negative_cases in Ha. destruct Ha as [->|(m & e & ->)].
  - destruct g as [sg|sg| |sg mg eg]; cbn [sign_clear] in Hg;
      try apply negb_true_iff in Hg; subst; reflexivity.
  - destruct g as [sg|sg| |sg mg eg]; cbn [sign_clear] in Hg;
      try apply negb_true_iff in Hg; subst; try reflexivity.
    cbn [SFopp negb Num.abs SFabs].
    rewrite add_finite_set, add_finite_clear. apply round_opp.
Qed.

Lemma add_to_zero_mirror a :
  Num.ltb a (Num.of_Z 0) = true ->
  Num.add (Num.of_Z 0) a = SFopp (Num.add (Num.of_Z 0) (Num.abs a)).
Proof.
  intros Ha. apply negative_cases in Ha. destruct Ha as [->|(m & e & ->)]; reflexivity.
Qed.

Lemma sum_mirror (l : list Transaction.t) g :
  sign_clear g = true ->
  (forall t, In t l -> Num.ltb (Transaction.amount t) (Num.of_Z 0) = true) ->
  fold_left (fun a t => Num.add a (Transaction.amount t)) l (SFopp g)
  = SFopp (fold_left (fun a t => Num.add a (Num.abs (Transaction.amount t))) l g).
Proof.
  revert g. induction l as [|t l IH]; intros g Hg Hneg; [reflexivity|].
  cbn [fold_left]. rewrite add_mirror by (simpl in *; auto).
  apply IH.
  - apply add_clear; [exact Hg|apply abs_clear].
  - intros t' Ht'. apply Hneg. now right.
Qed.

(** The magnitude of a sum of negative amounts is the sum of their
    magnitudes, bit for bit. *)
Lemma abs_of_negative_sum (l : list Transaction.t) :
  (forall t, In t l -> Num.ltb (Transaction.amount t) (Num.of_Z 0) = true) ->
  Num.abs (fold_left (fun a t => Num.add a (Transaction.amount t)) l (Num.of_Z 0))
  = fold_left (fun a t => Num.add a (Num.abs (Transaction.amount t))) l (Num.of_Z 0).
Proof.
  destruct l as [|t l]; intros Hneg; [reflexivity|].
  cbn [fold_left]. rewrite add_to_zero_mirror by (apply Hneg; now left).
  assert (Hg : sign_clear (Num.add (Num.of_Z 0) (Num.abs (Transaction.amount t))) = true)
    by (apply add_clear; [reflexivity|apply abs_clear]).
  rewrite sum_mirror; [|exact Hg|intros t' Ht'; apply Hneg; now right].
  rewrite abs_opp. apply abs_of_clear. now apply sum_of_magnitudes_clear.
Qed.

(** X6. The daily burn shown on a platform card is the dashboard's
    [dailyBurn] computed over that card's transactions alone: taking the
    magnitude of the sum of the negative amounts, as the card does, and
    summing their magnitudes, as the dashboard does, give the same
    number. *)
Theorem card_daily_is_dailyBurn
  (Date_parse : string -> option Z) (now : Z) (state : State) (p : Platform.t) :
  PlatformCard.daily Date_parse now (PlatformCard.transactions_of state p)
  = dailyBurn Date_parse now
      {| platforms := platforms state;
         transactions := PlatformCard.transactions_of state p |}.
Proof.
  set (txns := PlatformCard.transactions_of state p).
  set (recent := fun t : Transaction.t =>
                   match Date_parse (Transaction.date t) with
                   | Some d => cut now <=? d
                   | None => false
                   end).
  set (spend := fun t : Transaction.t => Num.ltb (Transaction.amount t) (Num.of_Z 0)).
  change (Num.toFixed
            (Num.div
               (Num.abs
                  (fold_left (fun a t => Num.add a (Transaction.amount t))
                     (filter (fun t => recent t && spend t) txns) (Num.of_Z 0)))
               (Num.of_Z 30)) 2
          = if Nat.eqb (List.length (filter recent txns)) 0 then Num.of_Z 0
            else Num.toFixed
                   (Num.div
                      (fold_left (fun a t => Num.add a (Num.abs (Transaction.amount t)))
                         (filter spend (filter recent txns)) (Num.of_Z 0))
                      (Num.of_Z 30)) 2).
  assert (Hfilter : filter (fun t => recent t && spend t) txns = filter spend (filter recent txns)).
  { rewrite filter_twice. apply filter_ext. intros t. apply andb_comm. }
  rewrite Hfilter.
  destruct (filter recent txns) as [|t l] eqn:Hrecent; [reflexivity|].
  cbn [List.length Nat.eqb].
  rewrite abs_of_negative_sum; [reflexivity|].
  intros t' Ht'. apply filter_In in Ht'. tauto.
Qed.

(** X7. The days left on a card agree with [forecastDays] applied to the
    platform's own balance ([credits || 0]) whenever the card's daily
    burn is a number; on a NaN burn the card shows the infinite sentinel
    where [forecastDays] yields NaN. *)
Theorem card_daysLeft_is_forecastDays (p : Platform.t) (daily : number) :
  (daily <> Num.NaN ->
   PlatformCard.daysLeft p daily = forecastDays (Num.or_zero (Platform.credits p)) daily)
  /\ PlatformCard.daysLeft p Num.NaN = Num.Infinity
  /\ forecastDays (Num.or_zero (Platform.credits p)) Num.NaN = Num.NaN.
Proof.
  unfold PlatformCard.daysLeft, forecastDays. rewrite of_Z_0. repeat apply conj.
  - intros Hnum.
    destruct daily as [s|s| |s m e]; try destruct s; try reflexivity.
    now destruct Hnum.
  - reflexivity.
  - destruct (Num.or_zero (Platform.credits p)); reflexivity.
Qed.

Lemma card_daysLeft_demo :
  PlatformCard.daysLeft
    (Platform.mk (demo_uuid 0) "Higgsfield" (Num.of_Z 160) "#34d399" "credits" "main"
       (Num.of_Z 0))
    (Num.decimal 533 2)
  = Num.of_Z 30.
Proof.
  destruct (card_daysLeft_is_forecastDays
              (Platform.mk (demo_uuid 0) "Higgsfield" (Num.of_Z 160) "#34d399" "credits" "main"
                 (Num.of_Z 0))
              (Num.decimal 533 2)) as (H & _).
  rewrite H; [vm_compute; reflexivity|vm_compute; discriminate].
Defined.

(** ** The 14-day chart *)





(** ** The balance curve of a card *)






(** ** The platform editor *)

Lemma or_else_same x d : x <> "" -> Str.or_else (Some x) d = x.
Proof. intros Hx. unfold Str.or_else. apply truthy_iff in Hx. now rewrite Hx. Qed.

Lemma or_else_empty_default x : Str.or_else (Some x) "" = x.
Proof.
  unfold Str.or_else. destruct (Str.truthy x) eqn:Hx; [reflexivity|].
  unfold Str.truthy in Hx. apply negb_false_iff, String.eqb_eq in Hx. now subst.
Qed.

Lemma untouched_form_patch (p : Platform.t) :
  Patch.apply p (EditPlatform.patch_of (EditPlatform.initial (Some p))) = normalised p.
Proof.
  unfold Patch.apply, EditPlatform.patch_of, EditPlatform.initial, normalised. simpl.
  f_equal. exact (or_else_empty_default (Platform.name p)).
Qed.

(** X10. Opening the editor on a platform and saving the form untouched
    writes the platform back with its falsy fields replaced by the
    form's defaults (an empty unit, account or colour, a NaN or zero
    balance or allowance), every other platform and the transactions
    unchanged; when the platform has none of those, the store is exactly
    as before. *)
Theorem edit_save_untouched (s : State) (p : Platform.t) :
  In p (platforms s) ->
  distinct_ids (platforms s) ->
  (exists l1 l2,
      platforms s = l1 ++ p :: l2
      /\ run (EditPlatform.onSave (Platform.id p)
                (EditPlatform.initial (EditPlatform.platform_prop s (Platform.id p)))) s
         = {| platforms := l1 ++ normalised p :: l2; transactions := transactions s |})
  /\ (Platform.unit p <> "" ->
      Platform.account p <> "" ->
      Platform.color p <> "" ->
      Num.or_zero (Platform.credits p) = Platform.credits p ->
      Num.or_zero (Platform.monthlyAllowance p) = Platform.monthlyAllowance p ->
      run (EditPlatform.onSave (Platform.id p)
             (EditPlatform.initial (EditPlatform.platform_prop s (Platform.id p)))) s
      = s).
Proof.
  intros Hin Hnd.
  assert (Hprop : EditPlatform.platform_prop s (Platform.id p) = Some p)
    by (apply find_by_id; assumption).
  destruct (in_split _ _ Hin) as (l1 & l2 & Hs).
  assert (Hsave : run (EditPlatform.onSave (Platform.id p)
                         (EditPlatform.initial (EditPlatform.platform_prop s (Platform.id p)))) s
                  = {| platforms := l1 ++ normalised p :: l2;
                       transactions := transactions s |}).
  { rewrite Hprop. unfold EditPlatform.onSave. simpl. f_equal.
    rewrite Hs. rewrite Hs in Hnd.
    rewrite (map_patch_one (fun q => Patch.apply q _) l1 p l2 Hnd).
    now rewrite untouched_form_patch. }
  split.
  - exists l1, l2. split; assumption.
  - intros Hunit Haccount Hcolor Hcredits Hallowance. rewrite Hsave.
    assert (Hsame : normalised p = p).
    { unfold normalised. rewrite Hcredits, Hallowance, !or_else_same by assumption.
      now destruct p. }
    rewrite Hsame, <- Hs. now destruct s.
Qed.

Lemma edit_save_untouched_demo :
  run (EditPlatform.onSave (Platform.id demo_suno)
         (EditPlatform.initial (EditPlatform.platform_prop demo_state (Platform.id demo_suno))))
      demo_state
  = demo_state.
Proof.
  destruct (edit_save_untouched demo_state demo_suno) as [_ H].
  - vm_compute. tauto.
  - distinct_concrete.
  - apply H; [discriminate|discriminate|discriminate|reflexivity|reflexivity].
Defined.

(** ** The transaction drawer *)

Lemma fresh_up_to_case_is_fresh (ps : list Platform.t) (name : string) :
  (forall q, In q ps -> Str.toLowerCase (Platform.name q) <> Str.toLowerCase name) ->
  forall q, In q ps -> Str.eqb (Platform.name q) name = false.
Proof.
  intros Hfresh q Hq. unfold Str.eqb. apply String.eqb_neq.
  intros Heq. apply (Hfresh q Hq). now rewrite Heq.
Qed.

(** X11. Creating a platform inline and then adding the transaction: for
    a name that is non-empty once trimmed and borne by no platform up to
    case, a drawn id no platform carries and a store with distinct ids,
    [createAndSelect] followed by [Add] in the next render appends the
    new platform with its starting balance plus the transaction's amount
    and records the transaction, under the trimmed name, first in the
    collection. *)
Theorem drawer_create_then_add (uuid1 uuid2 : string) (s : State) (d : Drawer.t) :
  trimmed_name (Drawer.custom_of (Drawer.newPf d)) <> "" ->
  (forall q, In q (platforms s) ->
             Str.toLowerCase (Platform.name q)
             <> Str.toLowerCase (trimmed_name (Drawer.custom_of (Drawer.newPf d)))) ->
  distinct_ids (platforms s) ->
  ~ In uuid1 (map Platform.id (platforms s)) ->
  then_run (fst (Drawer.createAndSelect (addCustomPlatform uuid1 s) d))
           (fun s1 => Drawer.add (onCreate uuid2 s1)
                        (snd (Drawer.createAndSelect (addCustomPlatform uuid1 s) d)))
           s
  = {| platforms :=
         platforms s
         ++ [with_credits (created uuid1 (Drawer.custom_of (Drawer.newPf d)))
               (Num.add (Num.or_zero (Drawer.credits (Drawer.newPf d)))
                        (TxnForm.amount (Drawer.form d)))];
       transactions :=
         stamp uuid2
           (Drawer.with_platform (Drawer.form d)
              (trimmed_name (Drawer.custom_of (Drawer.newPf d))))
         :: transactions s |}.
Proof.
  intros Hname Hfresh Hnd Hid.
  unfold then_run, Drawer.createAndSelect.
  change (Str.trim (Str.or_else (Some (Drawer.name (Drawer.newPf d))) ""))
    with (trimmed_name (Drawer.custom_of (Drawer.newPf d))).
  set (custom := Drawer.custom_of (Drawer.newPf d)) in *.
  assert (Htruthy : Str.truthy (trimmed_name custom) = true) by now apply truthy_iff.
  assert (Hexact := fresh_up_to_case_is_fresh _ _ Hfresh).
  rewrite Htruthy. cbn [negb fst snd].
  assert (Hcreate : run (addCustomPlatform uuid1 s custom) s
                    = {| platforms := platforms s ++ [created uuid1 custom];
                         transactions := transactions s |}).
  { unfold addCustomPlatform. fold (trimmed_name custom). rewrite Htruthy. cbn [negb].
    rewrite existsb_false; [reflexivity|].
    intros q Hq. unfold Str.eqb. apply String.eqb_neq. auto. }
  rewrite Hcreate. unfold Drawer.add. cbn [Drawer.form Drawer.with_platform TxnForm.platform].
  rewrite Htruthy. cbn [negb].
  unfold onCreate. cbn [platforms TxnForm.platform TxnForm.amount].
  rewrite (find_first_match _ (platforms s) (created uuid1 custom) []).
  - cbn [run fold_left app addTransaction updatePlatform step platforms transactions
             Platform.id created Platform.credits].
    f_equal.
    assert (Hnd1 : distinct_ids (platforms s ++ [created uuid1 custom])).
    { unfold distinct_ids. rewrite map_app. now apply NoDup_snoc. }
    apply (map_patch_one
             (fun q => Patch.apply q
                         (Patch.of_credits
                            (Num.add (Num.or_zero (Num.Number (CustomForm.credits custom)))
                                     (TxnForm.amount (Drawer.form d)))))
             (platforms s) (created uuid1 custom) [] Hnd1).
  - unfold Str.eqb. apply String.eqb_refl.
  - exact Hexact.
Qed.

Lemma drawer_create_then_add_demo :
  credits_of "Veo3"
    (then_run (fst (Drawer.createAndSelect (addCustomPlatform (demo_uuid 12) demo_state)
                      (demo_drawer (nbsp +:+ "Veo3 "))))
              (fun s1 => Drawer.add (onCreate (demo_uuid 13) s1)
                           (snd (Drawer.createAndSelect
                                   (addCustomPlatform (demo_uuid 12) demo_state)
                                   (demo_drawer (nbsp +:+ "Veo3 ")))))
              demo_state)
  = Some (Num.of_Z 60).
Proof.
  rewrite (drawer_create_then_add (demo_uuid 12) (demo_uuid 13) demo_state
             (demo_drawer (nbsp +:+ "Veo3 "))).
  - vm_compute. reflexivity.
  - vm_compute. discriminate.
  - intros q Hq. each_platform Hq.
  - distinct_concrete.
  - vm_compute. intuition discriminate.
Defined.

(** X12. Creating inline under a name some platform already bears up to
    case, though none bears it exactly: [createAndSelect] gets the
    platform refused with an alert and selects the name all the same,
    so that [Add] in the next render records a transaction naming a
    platform that does not exist and adjusts no balance. *)
Theorem drawer_refused_name_still_selected (uuid1 uuid2 : string) (s : State) (d : Drawer.t) :
  trimmed_name (Drawer.custom_of (Drawer.newPf d)) <> "" ->
  (exists q, In q (platforms s)
             /\ Str.toLowerCase (Platform.name q)
                = Str.toLowerCase (trimmed_name (Drawer.custom_of (Drawer.newPf d)))) ->
  (forall q, In q (platforms s) ->
             Platform.name q <> trimmed_name (Drawer.custom_of (Drawer.newPf d))) ->
  fst (Drawer.createAndSelect (addCustomPlatform uuid1 s) d)
  = [Alert "A platform with that name already exists."]
  /\ TxnForm.platform
       (Drawer.form (snd (Drawer.createAndSelect (addCustomPlatform uuid1 s) d)))
     = trimmed_name (Drawer.custom_of (Drawer.newPf d))
  /\ then_run (fst (Drawer.createAndSelect (addCustomPlatform uuid1 s) d))
              (fun s1 => Drawer.add (onCreate uuid2 s1)
                           (snd (Drawer.createAndSelect (addCustomPlatform uuid1 s) d)))
              s
     = {| platforms := platforms s;
          transactions :=
            stamp uuid2
              (Drawer.with_platform (Drawer.form d)
                 (trimmed_name (Drawer.custom_of (Drawer.newPf d))))
            :: transactions s |}.
Proof.
  intros Hname (q & Hq & Hcase) Hexact.
  set (custom := Drawer.custom_of (Drawer.newPf d)) in *.
  assert (Htruthy : Str.truthy (trimmed_name custom) = true) by now apply truthy_iff.
  assert (Hrefused : addCustomPlatform uuid1 s custom
                     = [Alert "A platform with that name already exists."]).
  { unfold addCustomPlatform. fold (trimmed_name custom). rewrite Htruthy. cbn [negb].
    replace (existsb _ (platforms s)) with true; [reflexivity|].
    symmetry. apply existsb_exists. exists q. split; [exact Hq|].
    unfold Str.eqb. now apply String.eqb_eq. }
  unfold then_run, Drawer.createAndSelect.
  change (Str.trim (Str.or_else (Some (Drawer.name (Drawer.newPf d))) ""))
    with (trimmed_name custom).
  fold custom.
  rewrite Htruthy. cbn [negb fst snd]. rewrite Hrefused.
  repeat apply conj; try reflexivity.
  unfold Drawer.add. cbn [Drawer.form Drawer.with_platform TxnForm.platform run fold_left step].
  rewrite Htruthy. cbn [negb].
  unfold onCreate. cbn [TxnForm.platform].
  rewrite find_no_match.
  - now destruct s.
  - intros p Hp. unfold Str.eqb. apply String.eqb_neq. auto.
Qed.

Lemma drawer_refused_demo :
  map Transaction.platform
      (transactions
         (then_run (fst (Drawer.createAndSelect (addCustomPlatform (demo_uuid 12) demo_state)
                           (demo_drawer "SUNO")))
                   (fun s1 => Drawer.add (onCreate (demo_uuid 13) s1)
                                (snd (Drawer.createAndSelect
                                        (addCustomPlatform (demo_uuid 12) demo_state)
                                        (demo_drawer "SUNO"))))
                   demo_state))
  = ["SUNO"; "Higgsfield"; "Suno"; "Runway"; "Google Flow"; "Pika"; "Luma"]
  /\ fst (Drawer.createAndSelect (addCustomPlatform (demo_uuid 12) accented_state)
            (demo_drawer (e_acute +:+ "cho" +:+ nbsp)))
     = [Alert "A platform with that name already exists."].
Proof.
  split.
  - destruct (drawer_refused_name_still_selected (demo_uuid 12) (demo_uuid 13) demo_state
                (demo_drawer "SUNO")) as (_ & _ & H).
    + vm_compute. discriminate.
    + exists demo_suno. vm_compute. tauto.
    + intros q Hq. each_platform Hq.
    + rewrite H. vm_compute. reflexivity.
  - destruct (drawer_refused_name_still_selected (demo_uuid 12) (demo_uuid 13) accented_state
                (demo_drawer (e_acute +:+ "cho" +:+ nbsp))) as (H & _).
    + vm_compute. discriminate.
    + exists (Platform.mk (demo_uuid 1) (E_acute +:+ "cho") (Num.of_Z 1000) "#60a5fa"
                "credits" "main" (Num.of_Z 0)).
      vm_compute. tauto.
    + intros q Hq. each_platform Hq.
    + exact H.
Defined.

(** ** Saving and loading *)

(** X13. What [saveState] stores, [loadState] reads back: when
    [JSON.parse] inverts [JSON.stringify] on the state and the text is
    not empty, loading from the storage that [saveState] wrote yields the
    saved platforms and transactions, not the built-in dataset, whatever
    else the storage holds. *)
Theorem loadState_after_saveState
  (JSON_stringify : json -> string) (JSON_parse : string -> option json)
  (uuid : nat -> string) (now : Z) (state : State) (localStorage : gmap string string) :
  JSON_parse (JSON_stringify (json_of_state state)) = Some (json_of_state state) ->
  JSON_stringify (json_of_state state) <> "" ->
  loadState JSON_parse uuid now
    (getItem (saveState JSON_stringify state localStorage) STORAGE_KEY)
  = Loaded_of state.
Proof.
  intros Hparse Htext. unfold getItem, saveState. rewrite lookup_insert_eq.
  unfold loadState. apply truthy_iff in Htext. rewrite Htext, Hparse. reflexivity.
Qed.

Lemma loadState_after_saveState_demo :
  loadState demo_JSON_reparse (fun n => demo_uuid (n + 50)) 0
    (getItem (saveState demo_JSON_stringify demo_state ∅) STORAGE_KEY)
  = Loaded_of demo_state.
Proof.
  apply (loadState_after_saveState demo_JSON_stringify demo_JSON_reparse).
  - reflexivity.
  - discriminate.
Defined.

(** ** Totals and burn across operations *)

Lemma or_zero_twice x : Num.or_zero (Num.or_zero x) = Num.or_zero x.
Proof. destruct x; reflexivity. Qed.

Lemma totalCredits_snoc (ps : list Platform.t) (ts ts' : list Transaction.t) (p : Platform.t) :
  totalCredits {| platforms := ps ++ [p]; transactions := ts |}
  = Num.add (totalCredits {| platforms := ps; transactions := ts' |})
            (Num.or_zero (Platform.credits p)).
Proof. unfold totalCredits. cbn [platforms]. now rewrite fold_left_app. Qed.

(** X14. A created platform adds its starting balance to the total:
    after an accepted [addCustomPlatform] the total is the old total
    plus [Number(credits) || 0], after an accepted [addPlatform] the old
    total plus 0; a refused creation and [addTransaction] leave the total
    as it was. *)
Theorem totalCredits_after_creation (uuid : string) (s : State) :
  (forall custom,
      trimmed_name custom <> "" ->
      (forall q, In q (platforms s) ->
                 Str.toLowerCase (Platform.name q) <> Str.toLowerCase (trimmed_name custom)) ->
      totalCredits (run (addCustomPlatform uuid s custom) s)
      = Num.add (totalCredits s) (Num.or_zero (Num.Number (CustomForm.credits custom))))
  /\ (forall name,
         name <> "" ->
         (forall q, In q (platforms s) -> Platform.name q <> name) ->
         totalCredits (run (addPlatform uuid s name) s)
         = Num.add (totalCredits s) (Num.of_Z 0))
  /\ (forall custom,
         trimmed_name custom = ""
         \/ (exists q, In q (platforms s)
                       /\ Str.toLowerCase (Platform.name q)
                          = Str.toLowerCase (trimmed_name custom)) ->
         totalCredits (run (addCustomPlatform uuid s custom) s) = totalCredits s)
  /\ (forall txn, totalCredits (run (addTransaction uuid txn) s) = totalCredits s).
Proof.
  repeat apply conj.
  - intros custom Hname Hfresh. unfold addCustomPlatform. fold (trimmed_name custom).
    apply truthy_iff in Hname. rewrite Hname. cbn [negb].
    rewrite existsb_false.
    + cbn [run fold_left step]. rewrite (totalCredits_snoc _ _ (transactions s)).
      cbn [Platform.credits]. rewrite or_zero_twice. now destruct s.
    + intros q Hq. unfold Str.eqb. apply String.eqb_neq. auto.
  - intros name Hname Hfresh. unfold addPlatform.
    apply truthy_iff in Hname. rewrite Hname. cbn [negb].
    rewrite existsb_false.
    + cbn [run fold_left step]. rewrite (totalCredits_snoc _ _ (transactions s)).
      now destruct s.
    + intros q Hq. unfold Str.eqb. apply String.eqb_neq. auto.
  - intros custom H. unfold addCustomPlatform. fold (trimmed_name custom).
    destruct H as [->|(q & Hq & Hname)]; [reflexivity|].
    destruct (Str.truthy (trimmed_name custom)); [|reflexivity]. cbn [negb].
    replace (existsb _ (platforms s)) with true; [reflexivity|].
    symmetry. apply existsb_exists. exists q. split; [exact Hq|].
    unfold Str.eqb. now apply String.eqb_eq.
  - intros txn. reflexivity.
Qed.

Lemma totalCredits_after_creation_demo :
  totalCredits (run (addCustomPlatform (demo_uuid 12) demo_state
                       (custom_form "Veo3" (Num.of_Z 250))) demo_state)
  = Num.of_Z 6250
  /\ totalCredits (run (addCustomPlatform (demo_uuid 12) demo_state
                          (custom_form nbsp (Num.of_Z 250))) demo_state)
     = Num.of_Z 6000.
Proof.
  destruct (totalCredits_after_creation (demo_uuid 12) demo_state) as (H & _ & Hrefused & _).
  split.
  - rewrite H.
    + vm_compute. reflexivity.
    + vm_compute. discriminate.
    + intros q Hq. each_platform Hq.
  - rewrite Hrefused.
    + vm_compute. reflexivity.
    + left. vm_compute. reflexivity.
Defined.

Lemma dailyBurn_as_worded (Date_parse : string -> option Z) (now : Z) (state : State) :
  dailyBurn Date_parse now state = dailyBurn_spec Date_parse now (transactions state).
Proof.
  assert (Hwindow : last30 Date_parse now state
                    = filter (in_last_30_days Date_parse now) (transactions state))
    by reflexivity.
  unfold dailyBurn, dailyBurn_spec, sum. rewrite Hwindow.
  rewrite <- (filter_twice is_spend (in_last_30_days Date_parse now)).
  rewrite <- fold_left_through_map.
  destruct (filter (in_last_30_days Date_parse now) (transactions state)) as [|t l];
    reflexivity.
Qed.

(** X15. Recording a transaction that is no spend of the last 30 days (a
    top-up or zero amount, an invalid date, or a date before the window)
    leaves [dailyBurn] unchanged. *)
Theorem dailyBurn_ignores_other_transactions
  (Date_parse : string -> option Z) (now : Z) (uuid : string) (txn : TxnForm.t) (s : State) :
  Num.ltb (TxnForm.amount txn) (Num.of_Z 0) = false
  \/ Date_parse (TxnForm.date txn) = None
  \/ (exists d, Date_parse (TxnForm.date txn) = Some d /\ d < now - 30 * 24 * 3600 * 1000) ->
  dailyBurn Date_parse now (run (addTransaction uuid txn) s) = dailyBurn Date_parse now s.
Proof.
  intros Hother. rewrite !dailyBurn_as_worded. unfold dailyBurn_spec.
  cbn [run addTransaction fold_left step transactions filter].
  replace (is_spend (stamp uuid txn) && in_last_30_days Date_parse now (stamp uuid txn))
    with false; [reflexivity|].
  symmetry. unfold is_spend, in_last_30_days. cbn [stamp Transaction.amount Transaction.date].
  destruct Hother as [->|[->|(d & -> & Hd)]].
  - reflexivity.
  - apply andb_false_r.
  - replace (now - 30 * Cal.msPerDay <=? d) with false; [apply andb_false_r|].
    symmetry. apply Z.leb_gt. unfold Cal.msPerDay. lia.
Qed.

Lemma dailyBurn_ignores_demo :
  dailyBurn Cal.parse_iso_date demo_now
    (run (addTransaction (demo_uuid 9)
            (TxnForm.mk "Higgsfield" (Num.of_Z 500) "" "top-up" "2025-11-11")) burn_state)
  = Num.decimal 533 2.
Proof.
  rewrite (dailyBurn_ignores_other_transactions Cal.parse_iso_date demo_now).
  - vm_compute. reflexivity.
  - left. vm_compute. reflexivity.
Defined.

(** ** Class names *)

Lemma split_without c s : includes c s = false -> Str.split c s = [s].
Proof.
  induction s as [|x s IH]; [reflexivity|].
  cbn [includes Str.split]. intros H. apply orb_false_iff in H. destruct H as [Hx Hs].
  rewrite Hx, IH by exact Hs. reflexivity.
Qed.

Lemma split_join c (l : list string) :
  l <> [] ->
  (forall s, In s l -> includes c s = false) ->
  Str.split c (Str.join (String c EmptyString) l) = l.
Proof.
  unfold Str.join. induction l as [|x l IH]; [congruence|]. intros _ Hfree.
  destruct l as [|y l].
  - apply split_without. apply Hfree. now left.
  - change (concat (String c EmptyString) (x :: y :: l))
      with (x +:+ String c (concat (String c EmptyString) (y :: l))).
    rewrite split_append, split_without by (apply Hfree; now left).
    rewrite IH; [reflexivity|discriminate|]. intros s Hs. apply Hfree. now right.
Qed.

(** X16. [classNames] joins exactly its truthy arguments: when none of
    them contains a space and at least one is kept, splitting the result
    on spaces gives back the non-empty strings among the arguments, in
    order; when every argument is falsy the result is the empty
    string. *)
Theorem classNames_keeps_truthy (c : list (option string)) :
  (filter Boolean_ c <> [] ->
   (forall s, In (Some s) c -> includes " " s = false) ->
   Str.split " " (classNames c) = map (default EmptyString) (filter Boolean_ c))
  /\ ((forall v, In v c -> Boolean_ v = false) -> classNames c = "").
Proof.
  split.
  - intros Hkept Hfree. unfold classNames. apply split_join.
    + destruct (filter Boolean_ c); [congruence|discriminate].
    + intros s Hs. apply in_map_iff in Hs. destruct Hs as (v & <- & Hv).
      apply filter_In in Hv. destruct Hv as [Hv Htrue].
      destruct v as [s|]; [|discriminate]. now apply Hfree.
  - intros Hfalsy. unfold classNames.
    replace (filter Boolean_ c) with (@nil (option string)); [reflexivity|].
    symmetry. induction c as [|v c IH]; [reflexivity|].
    cbn [filter]. rewrite (Hfalsy v) by now left. apply IH.
    intros v' Hv'. apply Hfalsy. now right.
Qed.

Lemma classNames_demo :
  Str.split " " (classNames [Some "font-medium"; None; Some ""; Some "text-rose-400"])
  = ["font-medium"; "text-rose-400"].
Proof.
  destruct (classNames_keeps_truthy
              [Some "font-medium"; None; Some ""; Some "text-rose-400"]) as [H _].
  rewrite H.
  - reflexivity.
  - discriminate.
  - intros s [Hs|[Hs|[Hs|[Hs|[]]]]]; inversion Hs; reflexivity.
Defined.

(** ** The drawer's guard *)

(** X17. The [Add] button reaches [onCreate] only with a form that names
    a platform: on an empty platform field it alerts and the store is
    unchanged, which is the case right after choosing the NEW entry of
    the dropdown and in a drawer opened while no platform exists; after
    choosing any other non-empty entry it hands [onCreate] the form with
    that platform. *)
Theorem drawer_add_needs_platform
  (onCreate_ : TxnForm.t -> list Effect) (d : Drawer.t) (s : State) :
  (TxnForm.platform (Drawer.form d) = "" -> run (Drawer.add onCreate_ d) s = s)
  /\ (TxnForm.platform (Drawer.form d) <> "" ->
      Drawer.add onCreate_ d = onCreate_ (Drawer.form d))
  /\ run (Drawer.add onCreate_ (Drawer.handlePlatformChange "__NEW__" d)) s = s
  /\ Drawer.makeNew (Drawer.handlePlatformChange "__NEW__" d) = true
  /\ (forall today, run (Drawer.add onCreate_ (Drawer.initial [] today)) s = s)
  /\ (forall val,
         val <> "__NEW__" -> val <> "" ->
         Drawer.add onCreate_ (Drawer.handlePlatformChange val d)
         = onCreate_ (Drawer.with_platform (Drawer.form d) val)).
Proof.
  repeat apply conj.
  - intros Hempty. unfold Drawer.add. rewrite Hempty. reflexivity.
  - intros Hnamed. unfold Drawer.add. apply truthy_iff in Hnamed. now rewrite Hnamed.
  - reflexivity.
  - reflexivity.
  - intros today. reflexivity.
  - intros val Hnew Hval. unfold Drawer.handlePlatformChange, Str.eqb.
    apply String.eqb_neq in Hnew. rewrite Hnew.
    unfold Drawer.add. cbn [Drawer.form Drawer.with_platform TxnForm.platform].
    apply truthy_iff in Hval. now rewrite Hval.
Qed.

Lemma drawer_add_demo :
  run (Drawer.add (onCreate (demo_uuid 12) demo_state)
         (Drawer.handlePlatformChange "Runway" (demo_drawer "")))
      demo_state
  = run (onCreate (demo_uuid 12) demo_state
           (Drawer.with_platform demo_txn "Runway")) demo_state.
Proof.
  destruct (drawer_add_needs_platform (onCreate (demo_uuid 12) demo_state)
              (demo_drawer "") demo_state) as (_ & _ & _ & _ & _ & H).
  rewrite H; [reflexivity|discriminate|discriminate].
Defined.

(** ** Removal and the other cards *)

Lemma removePlatform_transactions (s : State) (p : Platform.t) :
  In p (platforms s) ->
  distinct_ids (platforms s) ->
  transactions (run (removePlatform s (Platform.id p)) s)
  = filter (fun t => negb (Str.eqb (Transaction.platform t) (Platform.name p)))
           (transactions s).
Proof.
  intros Hin Hnd. simpl. rewrite (find_by_id _ p Hnd Hin). simpl.
  apply filter_ext. intros t.
  unfold Str.eqb. rewrite (String.eqb_sym (Platform.name p)).
  destruct (String.eqb_spec (Transaction.platform t) (Platform.name p)) as [Heq|Hne];
    simpl; [apply andb_false_r|].
  rewrite andb_true_r.
  destruct (platformMap s !! Transaction.platform t) as [q|] eqn:Hq; simpl; [|reflexivity].
  apply platformMap_sound in Hq. destruct Hq as [Hq Hname].
  string_cases (Platform.id q) (Platform.id p); [|reflexivity].
  exfalso. apply Hne. rewrite <- Hname. f_equal.
  now apply (same_id_same_platform (platforms s)).
Qed.

(** X18. Removing a platform of a store with distinct ids empties the
    card of its name and leaves the transactions shown on the card of
    every platform of another name exactly as they were. *)
Theorem removePlatform_keeps_other_cards (s : State) (p q : Platform.t) :
  In p (platforms s) ->
  distinct_ids (platforms s) ->
  PlatformCard.transactions_of (run (removePlatform s (Platform.id p)) s) p = []
  /\ (Platform.name q <> Platform.name p ->
      PlatformCard.transactions_of (run (removePlatform s (Platform.id p)) s) q
      = PlatformCard.transactions_of s q).
Proof.
  intros Hin Hnd. unfold PlatformCard.transactions_of.
  rewrite (removePlatform_transactions s p Hin Hnd), !filter_twice. split.
  - induction (transactions s) as [|t ts IH]; [reflexivity|].
    cbn [filter]. rewrite IH. now destruct (Str.eqb (Transaction.platform t) (Platform.name p)).
  - intros Hname. apply filter_ext. intros t. unfold Str.eqb.
    destruct (String.eqb_spec (Transaction.platform t) (Platform.name q)) as [Heq|];
      [|reflexivity].
    cbn [andb]. apply negb_true_iff, String.eqb_neq. congruence.
Qed.

Lemma removePlatform_cards_demo :
  PlatformCard.transactions_of (run (removePlatform demo_state (Platform.id demo_suno)) demo_state)
    demo_suno = []
  /\ PlatformCard.transactions_of (run (removePlatform demo_state (Platform.id demo_suno)) demo_state)
       (Platform.mk (demo_uuid 3) "Runway" (Num.of_Z 1000) "#f472b6" "credits" "main" (Num.of_Z 0))
     = PlatformCard.transactions_of demo_state
         (Platform.mk (demo_uuid 3) "Runway" (Num.of_Z 1000) "#f472b6" "credits" "main"
            (Num.of_Z 0)).
Proof.
  destruct (removePlatform_keeps_other_cards demo_state demo_suno
              (Platform.mk (demo_uuid 3) "Runway" (Num.of_Z 1000) "#f472b6" "credits" "main"
                 (Num.of_Z 0))) as [Hp Hq].
  - vm_compute. tauto.
  - distinct_concrete.
  - split; [exact Hp|apply Hq; discriminate].
Defined.
